(** * Healthmint: wallet connection and session authentication

    Shallow embedding of the client-side session code of Healthmint:
    - [Auth]: the [AuthService] singleton of
      [client/src/services/authService.js];
    - [Wallet]: the [useWalletConnect] hook (stored in
      [client/src/components/UserRegistration.js]);
    - [Sanitize]: the sanitizers of [utils/sanitizers.js].

    Browser storage ([localStorage], [sessionStorage]) is a [gmap string string]:
    [getItem] is lookup, [setItem] is insert, [removeItem] is delete.
    Calls to the compliance audit sink and UI notifications are recorded as
    emitted [effect]s, in the order the code issues them. *)

From stdpp Require Import base gmap strings list.
From Stdlib Require Import ZArith String Ascii.

Open Scope string_scope.

Inductive effect :=
  | Audit (eventType : string)              (* hipaaComplianceService.createAuditLog *)
  | Notify (kind : string) (message : string). (* dispatch(addNotification(..)) *)

Definition count_audits (es : list effect) : nat :=
  List.length (List.filter (fun e => match e with Audit _ => true | _ => false end) es).

(** A value other than [null]. *)
Definition is_set {A} (o : option A) : bool :=
  match o with Some _ => true | None => false end.

(** JavaScript truthiness of a value that is a string or null. *)
Definition truthy_str (o : option string) : bool :=
  match o with
  | Some s => negb (String.eqb s "")
  | None => false
  end.

Module Auth.

(** The JavaScript built-ins the service relies on. *)
Class JsRuntime := {
  Profile : Type;                           (* a parsed user profile object *)
  profile_address : Profile -> option string; (* profile.address *)
  json_stringify : Profile -> string;
  json_parse : string -> option Profile;    (* None: JSON.parse throws *)
  date_parse : string -> option Z;          (* new Date(s).getTime(); None: Invalid Date *)
  iso_string : Z -> string;                 (* new Date(t).toISOString() *)
  num_string : Z -> string                  (* String(Date.now()) *)
}.

Definition tokenKey := "healthmint_auth_token".
Definition refreshTokenKey := "healthmint_refresh_token".
Definition tokenExpiryKey := "healthmint_token_expiry".
Definition userProfileKey := "healthmint_user_profile".
Definition walletAddressKey := "healthmint_wallet_address".
Definition isNewUserKey := "healthmint_is_new_user".

Section AuthService.
Context `{JsRuntime}.

(** The in-memory fields of the singleton. *)
Record auth := mkAuth {
  token : option string;
  refreshToken : option string;
  tokenExpiry : option string;
  userProfile : option Profile;
  walletAddress : option string;
  isNewUser_ : bool
}.

(** The service together with the [localStorage] it mirrors. *)
Record svc := mkSvc {
  mem : auth;
  store : gmap string string
}.

(** [userProfileStr ? JSON.parse(userProfileStr) : null]; [None] when
    [JSON.parse] throws. *)
Definition load_profile (ps : option string) : option (option Profile) :=
  match ps with
  | Some s => if String.eqb s "" then Some None else option_map Some (json_parse s)
  | None => Some None
  end.

(** [loadAuthState]; [None] when it throws. *)
Definition loadAuthState (ls : gmap string string) : option auth :=
  match load_profile (ls !! userProfileKey) with
  | None => None
  | Some up =>
      Some (mkAuth (ls !! tokenKey) (ls !! refreshTokenKey) (ls !! tokenExpiryKey)
              up (ls !! walletAddressKey)
              (bool_decide (ls !! isNewUserKey = Some "true")))
  end.

(** [isAuthenticated()] at the instant [now] (milliseconds). *)
Definition isAuthenticated (a : auth) (now : Z) : bool :=
  if negb (truthy_str a.(token)) then false
  else if truthy_str a.(tokenExpiry) then
    match a.(tokenExpiry) with
    | Some e =>
        match date_parse e with
        | Some t => if Z.leb t now then false else true
        | None => true   (* NaN <= now is false *)
        end
    | None => true
    end
  else true.

(** [verifyToken()] at the instant [now]. *)
Definition verifyToken (a : auth) (now : Z) : bool :=
  if negb (truthy_str a.(token)) then false
  else if truthy_str a.(tokenExpiry) then
    match a.(tokenExpiry) with
    | Some e =>
        match date_parse e with
        | Some t => if Z.leb t now then false else true
        | None => true
        end
    | None => true
    end
  else true.

Definition isNewUser (a : auth) : bool := a.(isNewUser_).

Definition set_if (k : string) (v : option string) (ls : gmap string string)
  : gmap string string :=
  if truthy_str v then
    match v with Some s => <[k := s]> ls | None => ls end
  else ls.

(** [updateAuthState({token, refreshToken, expiresAt, userProfile, isNewUser})]. *)
Definition updateAuthState (tok rt exp : option string) (up : option Profile)
    (nu : bool) (s : svc) : svc :=
  let ls := set_if tokenKey tok s.(store) in
  let ls := set_if refreshTokenKey rt ls in
  let ls := set_if tokenExpiryKey exp ls in
  let ls := match up with
            | Some p => <[userProfileKey := json_stringify p]> ls
            | None => ls
            end in
  let ls := <[isNewUserKey := if nu then "true" else "false"]> ls in
  mkSvc (mkAuth tok rt exp up s.(mem).(walletAddress) nu) ls.

Definition set_new_user (b : bool) (a : auth) : auth :=
  mkAuth a.(token) a.(refreshToken) a.(tokenExpiry) a.(userProfile) a.(walletAddress) b.

Definition set_profile (up : option Profile) (a : auth) : auth :=
  mkAuth a.(token) a.(refreshToken) a.(tokenExpiry) up a.(walletAddress) a.(isNewUser_).

(** The second half of [getUserByWallet]: the profile saved under
    [healthmint_user_<address>], else the new-user flag is raised. *)
Definition saved_user (w : string) (s : svc) : svc * option Profile :=
  match s.(store) !! ("healthmint_user_" ++ w) with
  | Some su =>
      if String.eqb su "" then
        (mkSvc (set_new_user true s.(mem)) (<[isNewUserKey := "true"]> s.(store)), None)
      else (s, json_parse su)   (* a throwing JSON.parse is caught: null *)
  | None => (mkSvc (set_new_user true s.(mem)) (<[isNewUserKey := "true"]> s.(store)), None)
  end.

(** [getUserByWallet(walletAddress)]: the catch branch returns [null]. *)
Definition getUserByWallet (w : string) (s : svc) : svc * option Profile :=
  match load_profile (s.(store) !! userProfileKey) with
  | None => (s, None)
  | Some (Some p) =>
      if bool_decide (profile_address p = Some w) then (s, Some p) else saved_user w s
  | Some None => saved_user w s
  end.

Definition set_wallet (w : string) (a : auth) : auth :=
  mkAuth a.(token) a.(refreshToken) a.(tokenExpiry) a.(userProfile) (Some w) a.(isNewUser_).

(** [login(credentials)] at the instant [now]. [attempt_ok] and [success_ok]
    say whether the awaited [AUTH_ATTEMPT] and [AUTH_SUCCESS] audit writes
    resolve; a rejection lands in the catch block. The demo
    [performApiLogin] builds its bundle from [Date.now()]. *)
Definition login (arg : option string) (now : Z) (attempt_ok success_ok : bool)
    (s : svc) : svc * list effect * bool :=
  let wa := if truthy_str arg then arg else s.(mem).(walletAddress) in
  if negb (truthy_str wa) then (s, [Audit "AUTH_FAILURE"], false) else
  match wa with
  | None => (s, [Audit "AUTH_FAILURE"], false)
  | Some w =>
      let s1 := mkSvc (set_wallet w s.(mem)) (<[walletAddressKey := w]> s.(store)) in
      if negb attempt_ok then (s1, [Audit "AUTH_ATTEMPT"; Audit "AUTH_FAILURE"], false) else
      if isAuthenticated s1.(mem) now && is_set s1.(mem).(userProfile)
      then (s1, [Audit "AUTH_ATTEMPT"], true) else
      let '(s2, up) := getUserByWallet w s1 in
      let s3 := updateAuthState (Some ("demo_token_" ++ num_string now))
                  (Some ("demo_refresh_" ++ num_string now))
                  (Some (iso_string (now + 24 * 60 * 60 * 1000))) up false s2 in
      if success_ok then (s3, [Audit "AUTH_ATTEMPT"; Audit "AUTH_SUCCESS"], true)
      else (s3, [Audit "AUTH_ATTEMPT"; Audit "AUTH_SUCCESS"; Audit "AUTH_FAILURE"], false)
  end.

(** [logout()]; [audit_ok] says whether the awaited [AUTH_LOGOUT] audit
    write resolves. *)
Definition logout (audit_ok : bool) (s : svc) : svc * list effect * bool :=
  if negb audit_ok then (s, [Audit "AUTH_LOGOUT"], false) else
  let ls := delete isNewUserKey (delete userProfileKey (delete tokenExpiryKey
              (delete refreshTokenKey (delete tokenKey s.(store))))) in
  (mkSvc (mkAuth None None None None s.(mem).(walletAddress) false) ls,
   [Audit "AUTH_LOGOUT"], true).

(** [refreshAuthToken()] at the instant [now]. *)
Definition refreshAuthToken (now : Z) (s : svc) : svc * bool :=
  if negb (truthy_str s.(mem).(refreshToken)) then (s, false) else
  let t := "demo_token_" ++ num_string now in
  let r := "demo_refresh_" ++ num_string now in
  let e := iso_string (now + 24 * 60 * 60 * 1000) in
  let a := s.(mem) in
  (mkSvc (mkAuth (Some t) (Some r) (Some e) a.(userProfile) a.(walletAddress) a.(isNewUser_))
     (<[tokenExpiryKey := e]> (<[refreshTokenKey := r]> (<[tokenKey := t]> s.(store)))),
   true).

(** The part of [register] and [completeRegistration] that stores the
    profile and lowers the new-user flag. *)
Definition store_registration (ud : Profile) (s : svc) : svc :=
  mkSvc (set_new_user false (set_profile (Some ud) s.(mem)))
    (<[isNewUserKey := "false"]> (<[userProfileKey := json_stringify ud]> s.(store))).

(** [register(userData)]; [userData] is [None] for a null argument. *)
Definition register (ud : option Profile) (attempt_ok success_ok : bool) (s : svc)
    : svc * list effect * bool :=
  match ud with
  | None => (s, [Audit "REGISTRATION_FAILURE"], false)
  | Some p =>
      match profile_address p with
      | Some addr =>
          if String.eqb addr "" then (s, [Audit "REGISTRATION_FAILURE"], false) else
          if negb attempt_ok
          then (s, [Audit "REGISTRATION_ATTEMPT"; Audit "REGISTRATION_FAILURE"], false) else
          let s1 := mkSvc s.(mem)
                      (<[("healthmint_user_" ++ addr) := json_stringify p]> s.(store)) in
          let s2 := store_registration p s1 in
          if success_ok
          then (s2, [Audit "REGISTRATION_ATTEMPT"; Audit "REGISTRATION_SUCCESS"], true)
          else (s2, [Audit "REGISTRATION_ATTEMPT"; Audit "REGISTRATION_SUCCESS";
                     Audit "REGISTRATION_FAILURE"], false)
      | None => (s, [Audit "REGISTRATION_FAILURE"], false)
      end
  end.

(** [completeRegistration(userData)]. *)
Definition completeRegistration (ud : Profile) (s : svc) : svc * list effect :=
  (store_registration ud s, [Audit "REGISTRATION_COMPLETED"]).

(** [updateProfile(userData)]; [false] in the result stands for the
    rethrown error. *)
Definition updateProfile (ud : Profile) (audit_ok : bool) (s : svc)
    : svc * list effect * bool :=
  match profile_address ud with
  | Some addr =>
      if String.eqb addr "" then (s, [], false) else
      if negb audit_ok then (s, [Audit "PROFILE_UPDATE"], false) else
      (mkSvc (set_profile (Some ud) s.(mem))
         (<[userProfileKey := json_stringify ud]>
            (<[("healthmint_user_" ++ addr) := json_stringify ud]> s.(store))),
       [Audit "PROFILE_UPDATE"], true)
  | None => (s, [], false)
  end.

Definition credential_key (k : string) : Prop :=
  k = tokenKey \/ k = refreshTokenKey \/ k = tokenExpiryKey.

(** One atomic step of the service: every method runs without suspension
    between its credential writes, so interleavings are sequences of steps.
    [StepReload] is a page reload (a new singleton reading [localStorage]);
    the foreign steps are writes of other code to keys other than the
    credential ones. *)
Inductive step : svc -> svc -> Prop :=
  | StepReload s a :
      loadAuthState s.(store) = Some a -> step s (mkSvc a s.(store))
  | StepLogin s arg now b1 b2 :
      step s (login arg now b1 b2 s).1.1
  | StepLogout s b :
      step s (logout b s).1.1
  | StepRefresh s now :
      step s (refreshAuthToken now s).1
  | StepRegister s ud b1 b2 :
      step s (register ud b1 b2 s).1.1
  | StepComplete s ud :
      step s (completeRegistration ud s).1
  | StepUpdateProfile s ud b :
      step s (updateProfile ud b s).1.1
  | StepForeignSet s k v :
      ~ credential_key k -> step s (mkSvc s.(mem) (<[k := v]> s.(store)))
  | StepForeignRemove s k :
      ~ credential_key k -> step s (mkSvc s.(mem) (delete k s.(store))).

(** The first singleton, on a fresh [localStorage]. *)
Definition init : svc :=
  mkSvc (mkAuth None None None None None false) ∅.

Definition reachable (s : svc) : Prop := rtc step init s.

(** Token and expiry present together, in memory and in storage. *)
Definition cred_inv (s : svc) : Prop :=
  (is_set s.(mem).(token) = is_set s.(mem).(tokenExpiry)) /\
  (is_set (s.(store) !! tokenKey) = is_set (s.(store) !! tokenExpiryKey)).

(** [isRegistrationComplete()]. *)
Definition isRegistrationComplete (a : auth) : bool :=
  is_set a.(userProfile) && negb a.(isNewUser_).

End AuthService.
End Auth.

(** A concrete runtime, to run the service on explicit inputs: a profile
    is its address, JSON is the identity, and one ISO date is known. *)
Module SampleRuntime.
#[export] Instance sample_runtime : Auth.JsRuntime := {|
  Auth.Profile := string;
  Auth.profile_address := fun p => Some p;
  Auth.json_stringify := fun p => p;
  Auth.json_parse := fun s => Some s;
  Auth.date_parse := fun s =>
    if String.eqb s "2030-01-01T00:00:00.000Z" then Some 1893456000000%Z else None;
  Auth.iso_string := fun _ => "2030-01-01T00:00:00.000Z";
  Auth.num_string := fun _ => "1893369600000"
|}.
End SampleRuntime.

(** A second concrete runtime whose JSON reads back what it wrote: a
    profile is its address, serialised behind a leading [J]. *)
Module JsonRuntime.
#[export] Instance json_runtime : Auth.JsRuntime := {|
  Auth.Profile := string;
  Auth.profile_address := fun p => Some p;
  Auth.json_stringify := fun p => String "J"%char p;
  Auth.json_parse := fun s =>
    match s with
    | String c r => if Ascii.eqb c "J"%char then Some r else None
    | EmptyString => None
    end;
  Auth.date_parse := fun s =>
    if String.eqb s "2030-01-01T00:00:00.000Z" then Some 1893456000000%Z else None;
  Auth.iso_string := fun _ => "2030-01-01T00:00:00.000Z";
  Auth.num_string := fun _ => "1893369600000"
|}.
End JsonRuntime.

Module Wallet.

Definition addressKey := "healthmint_wallet_address".
Definition connectionKey := "healthmint_wallet_connection".

(** [getNetworkFromChainId(chainId)]; the lookup in the [networks] literal
    is modelled on the four hex ids it lists. *)
Record network := mkNetwork {
  n_name : string;
  n_isSupported : bool;
  n_chainId : option string
}.

Definition getNetworkFromChainId (cid : option string) : network :=
  match cid with
  | Some c =>
      if String.eqb c "" then mkNetwork "Unknown" false None
      else if String.eqb c "0x1" then mkNetwork "Ethereum Mainnet" true (Some c)
      else if String.eqb c "0xaa36a7" then mkNetwork "Sepolia Testnet" true (Some c)
      else if String.eqb c "0x5" then mkNetwork "Goerli Testnet" false (Some c)
      else if String.eqb c "0x539" then mkNetwork "Local Development" true (Some c)
      else mkNetwork ("Unknown Network (" ++ c ++ ")") false (Some c)
  | None => mkNetwork "Unknown" false None
  end.

(** [n.toString(16)] for a natural number [n]. *)
Definition hex_digit (d : N) : string := substring (N.to_nat d) 1 "0123456789abcdef".

Fixpoint hex_aux (fuel : nat) (n : N) (acc : string) : string :=
  match fuel with
  | O => acc
  | S f =>
      let acc' := hex_digit (N.modulo n 16) ++ acc in
      if N.ltb n 16 then acc' else hex_aux f (N.div n 16) acc'
  end.

Definition hex_of_N (n : N) : string := hex_aux (S (N.size_nat n)) n "".

(** [parseInt(s, 16)] on a string of lowercase hex digits. *)
Definition hex_digit_value (c : ascii) : N :=
  let n := nat_of_ascii c in
  if Nat.leb 97 n then N.of_nat (n - 87) else N.of_nat (n - 48).

Fixpoint parse_hex_acc (s : string) (v : N) : N :=
  match s with
  | EmptyString => v
  | String c r => parse_hex_acc r (v * 16 + hex_digit_value c)
  end.

Definition parseInt16 (s : string) : N := parse_hex_acc s 0.

(** [s.slice(0, 6)] and [s.slice(-4)]. *)
Definition js_slice_head (n : nat) (s : string) : string := substring 0 n s.
Definition js_slice_last (n : nat) (s : string) : string :=
  substring (String.length s - n) n s.

(** Modelled from the spec: the wallet slice of the Redux store
    ([redux/slices/walletSlice.js], not part of the sources), holding the
    WalletIdentity of the spec. [updateWalletConnection] and
    [setWalletConnection] assign the fields of their payload;
    [clearWalletConnection] returns the slice to its initial, disconnected
    value. *)
Record wallet_state := mkWallet {
  w_address : option string;
  w_chainId : option string;
  w_isConnected : bool;
  w_network : option network;
  w_walletType : option string;
  w_lastConnected : option Z
}.

Definition wallet_init : wallet_state := mkWallet None None false None None None.

(** One field of a wallet action payload. *)
Inductive wfield :=
  | FAddress (a : option string)
  | FChainId (c : option string)
  | FIsConnected (b : bool)
  | FNetwork (n : option network)
  | FWalletType (t : option string)
  | FLastConnected (t : option Z).

Definition apply_field (w : wallet_state) (f : wfield) : wallet_state :=
  match f with
  | FAddress a => mkWallet a w.(w_chainId) w.(w_isConnected) w.(w_network) w.(w_walletType) w.(w_lastConnected)
  | FChainId c => mkWallet w.(w_address) c w.(w_isConnected) w.(w_network) w.(w_walletType) w.(w_lastConnected)
  | FIsConnected b => mkWallet w.(w_address) w.(w_chainId) b w.(w_network) w.(w_walletType) w.(w_lastConnected)
  | FNetwork n => mkWallet w.(w_address) w.(w_chainId) w.(w_isConnected) n w.(w_walletType) w.(w_lastConnected)
  | FWalletType t => mkWallet w.(w_address) w.(w_chainId) w.(w_isConnected) w.(w_network) t w.(w_lastConnected)
  | FLastConnected t => mkWallet w.(w_address) w.(w_chainId) w.(w_isConnected) w.(w_network) w.(w_walletType) t
  end.

Definition apply_patch (p : list wfield) (w : wallet_state) : wallet_state :=
  fold_left apply_field p w.

(** The Redux actions the hook dispatches (notifications are [effect]s). *)
Inductive action :=
  | UpdateWalletConnection (p : list wfield)
  | SetWalletConnection (p : list wfield)
  | ClearWalletConnection
  | UpdateUserProfile (address : string).

(** The state the hook reads and writes: both browser storages, the wallet
    slice and the profile address in Redux, its React state, and the
    [isActive] ref. *)
Record hook := mkHook {
  local : gmap string string;
  session : gmap string string;
  wallet : wallet_state;
  user_address : option string;
  loading : bool;
  isConnecting : bool;
  error : option string;
  isActive : bool
}.

Definition dispatch (act : action) (h : hook) : hook :=
  match act with
  | UpdateWalletConnection p | SetWalletConnection p =>
      mkHook h.(local) h.(session) (apply_patch p h.(wallet)) h.(user_address)
        h.(loading) h.(isConnecting) h.(error) h.(isActive)
  | ClearWalletConnection =>
      mkHook h.(local) h.(session) wallet_init h.(user_address)
        h.(loading) h.(isConnecting) h.(error) h.(isActive)
  | UpdateUserProfile a =>
      mkHook h.(local) h.(session) h.(wallet) (Some a)
        h.(loading) h.(isConnecting) h.(error) h.(isActive)
  end.

Definition set_local (ls : gmap string string) (h : hook) : hook :=
  mkHook ls h.(session) h.(wallet) h.(user_address) h.(loading) h.(isConnecting) h.(error) h.(isActive).
Definition set_session (ss : gmap string string) (h : hook) : hook :=
  mkHook h.(local) ss h.(wallet) h.(user_address) h.(loading) h.(isConnecting) h.(error) h.(isActive).
Definition set_loading (b : bool) (h : hook) : hook :=
  mkHook h.(local) h.(session) h.(wallet) h.(user_address) b h.(isConnecting) h.(error) h.(isActive).
Definition set_connecting (b : bool) (h : hook) : hook :=
  mkHook h.(local) h.(session) h.(wallet) h.(user_address) h.(loading) b h.(error) h.(isActive).
Definition set_error (e : option string) (h : hook) : hook :=
  mkHook h.(local) h.(session) h.(wallet) h.(user_address) h.(loading) h.(isConnecting) e h.(isActive).

(** A provider request: a result, or a rejection with its [code] and
    [message]. *)
Inductive rpc (A : Type) :=
  | RpcOk (v : A)
  | RpcErr (code : option Z) (message : string).
Arguments RpcOk {A} v.
Arguments RpcErr {A} code message.

(** The answers of [window.ethereum] during one call. *)
Record provider := mkProvider {
  request_accounts : rpc (list string);  (* eth_requestAccounts *)
  get_network : rpc N;                   (* Web3Provider.getNetwork(): chainId *)
  has_disconnect : bool;                 (* typeof disconnect === "function" *)
  isMetaMask : bool
}.

Inductive connect_result :=
  | ConnectOk (address chainId : string) (net : network)
  | ConnectFail (message : string).

Definition connect_error_message (code : option Z) (msg : string) : string :=
  if bool_decide (code = Some 4001%Z) then "You rejected the connection request."
  else if bool_decide (code = Some (-32002)%Z)
  then "Connection request already pending. Please check your wallet."
  else if String.eqb msg "" then "Failed to connect wallet" else msg.

(** The catch block of [connectWallet]. *)
Definition connect_catch (code : option Z) (msg : string) (h : hook)
    : hook * connect_result :=
  let m := connect_error_message code msg in
  let h := set_error (Some m) h in
  (set_local (delete connectionKey (delete addressKey h.(local))) h, ConnectFail m).

(** The finally block of [connectWallet]. *)
Definition connect_finally (h : hook) : hook :=
  if h.(isActive) then set_connecting false (set_loading false h) else h.

(** [connectWallet()]; [eth] is [window.ethereum] and [now] is [Date.now()]. *)
Definition connectWallet (eth : option provider) (now : Z) (h : hook)
    : hook * list effect * connect_result :=
  match eth with
  | None =>
      let m := "Please install MetaMask to continue" in
      (set_error (Some m) h, [], ConnectFail m)
  | Some p =>
      let h1 := set_error None (set_loading true (set_connecting true h)) in
      let '(h2, r) :=
        match p.(request_accounts) with
        | RpcErr code msg => connect_catch code msg h1
        | RpcOk [] => connect_catch None "No accounts found. Please connect your wallet." h1
        | RpcOk (a :: _) =>
            match p.(get_network) with
            | RpcErr code msg => connect_catch code msg h1
            | RpcOk n =>
                let cid := "0x" ++ hex_of_N n in
                let net := getNetworkFromChainId (Some cid) in
                let h := set_local (<[connectionKey := "true"]> (<[addressKey := a]> h1.(local))) h1 in
                let h := dispatch (UpdateWalletConnection
                           [FAddress (Some a); FChainId (Some cid); FIsConnected true;
                            FWalletType (Some "metamask"); FLastConnected (Some now)]) h in
                let h := dispatch (UpdateUserProfile a) h in
                (h, ConnectOk a cid net)
            end
        end in
      (connect_finally h2, [], r)
  end.

(** [disconnectWallet()]. The provider's [disconnect()] is awaited when it
    exists and its failure is caught, so it does not change the hook's
    state; nothing in the try block throws. *)
Definition disconnectWallet (eth : option provider) (h : hook)
    : hook * list effect * bool :=
  let h := set_error None (set_loading true h) in
  let ss := <["logout_in_progress" := "true"]> h.(session) in
  let ss := delete "bypass_role_check" (delete "bypass_route_protection"
              (delete "auth_verification_override" ss)) in
  let h := set_session ss h in
  let h := dispatch (SetWalletConnection [FAddress None; FIsConnected false; FNetwork None]) h in
  let h := set_local (delete connectionKey (delete addressKey h.(local))) h in
  let h := set_session (<["force_wallet_reconnect" := "true"]> h.(session)) h in
  (set_loading false h, [Notify "success" "Wallet disconnected successfully"], true).

(** [handleAccountsChanged(accounts)], the [accountsChanged] listener. *)
Definition handleAccountsChanged (accounts : list string) (h : hook) : hook * list effect :=
  if negb h.(isActive) then (h, []) else
  match accounts with
  | [] =>
      let h := dispatch ClearWalletConnection h in
      let h := set_local (delete connectionKey (delete addressKey h.(local))) h in
      (h, [Notify "info" "Wallet disconnected"])
  | a :: _ =>
      let h := set_local (<[addressKey := a]> h.(local)) h in
      let h := dispatch (UpdateUserProfile a) h in
      let h := dispatch (UpdateWalletConnection [FAddress (Some a)]) h in
      (h, [Notify "info" ("Account changed to " ++ js_slice_head 6 a ++ "..." ++ js_slice_last 4 a)])
  end.

(** The spec's connection state, read off the wallet slice. *)
Inductive conn_state :=
  | Disconnected
  | Connected (address : string) (chainId : option string).

Definition conn_of (w : wallet_state) : conn_state :=
  match w.(w_isConnected), w.(w_address) with
  | true, Some a => Connected a w.(w_chainId)
  | _, _ => Disconnected
  end.

(** ASCII lower-casing, [String.prototype.toLowerCase] on ASCII input. *)
Definition lower_ascii (c : ascii) : ascii :=
  let n := nat_of_ascii c in
  if (Nat.leb 65 n && Nat.leb n 90)%bool then ascii_of_nat (n + 32)%nat else c.

Fixpoint to_lower (s : string) : string :=
  match s with
  | EmptyString => EmptyString
  | String c s' => String (lower_ascii c) (to_lower s')
  end.

(** [handleChainChanged(chainId)], the [chainChanged] listener. *)
Definition handleChainChanged (cid : string) (h : hook) : hook * list effect :=
  if negb h.(isActive) then (h, []) else
  let net := getNetworkFromChainId (Some cid) in
  let h := dispatch (UpdateWalletConnection [FChainId (Some cid); FNetwork (Some net)]) h in
  (h, [Notify (if net.(n_isSupported) then "info" else "warning")
         (if net.(n_isSupported) then "Connected to " ++ net.(n_name)
          else "Connected to unsupported network: " ++ net.(n_name))]).

(** [switchNetwork(targetChainId)]; [eth] is [window.ethereum] and, when it
    exists, its answer to the [wallet_switchEthereumChain] request. *)
Definition switchNetwork (eth : option (rpc unit)) (h : hook) : hook * list effect * bool :=
  match eth with
  | None => (h, [], false)
  | Some answer =>
      let h := set_loading true h in
      let '(es, r) :=
        match answer with
        | RpcOk _ => ([], true)
        | RpcErr code _ =>
            (if bool_decide (code = Some 4001%Z)
             then [Notify "info" "Network switch was rejected."]
             else [Notify "error" "Failed to switch network. Please try again."], false)
        end in
      ((if h.(isActive) then set_loading false h else h), es, r)
  end.

(** The reconnecting branch of the listener effect run on mount. [eth] is
    [None] when [window.ethereum.on] is missing (the effect returns at
    once), else the answer to [eth_chainId]. A truthy stored address with
    the stored flag ["true"], while the wallet slice has no address, is
    reconnected; a rejected request is only logged. *)
Definition restoreConnection (eth : option (rpc string)) (now : Z) (h : hook) : hook :=
  match eth with
  | None => h
  | Some chain =>
      let stored := h.(local) !! addressKey in
      if (truthy_str stored && bool_decide (h.(local) !! connectionKey = Some "true")
          && negb (truthy_str h.(wallet).(w_address)))%bool then
        match stored, chain with
        | Some a, RpcOk cid =>
            let h := dispatch (UpdateWalletConnection
                       [FAddress (Some a); FChainId (Some cid); FIsConnected true;
                        FNetwork (Some (getNetworkFromChainId (Some cid)));
                        FWalletType (Some "metamask"); FLastConnected (Some now)]) h in
            dispatch (UpdateUserProfile a) h
        | _, _ => h
        end
      else h
  end.

(** The hook mounted again after a page reload: both storages survive,
    the Redux store and the React state start afresh. *)
Definition remount (h : hook) : hook :=
  mkHook h.(local) h.(session) wallet_init None false false None true.

End Wallet.

Module Sanitize.

(** A JavaScript number: [NaN] or a finite value; the claims about the
    sanitizers never inspect fractional parts, so finite values are
    integers here. *)
Inductive jsnum := NaN | Num (z : Z).

(** JavaScript values as the sanitizers see them; objects are their own
    enumerable properties in property order. *)
#[warnings="-register-all"]
Inductive jsval :=
  | JUndefined
  | JNull
  | JBool (b : bool)
  | JNum (n : jsnum)
  | JStr (s : string)
  | JDate (t : jsnum)
  | JArr (items : list jsval)
  | JObj (props : list (string * jsval))
  | JFun.

(** [!!v]. *)
Definition truthy (v : jsval) : bool :=
  match v with
  | JUndefined | JNull => false
  | JBool b => b
  | JNum NaN => false
  | JNum (Num z) => negb (Z.eqb z 0)
  | JStr s => negb (String.eqb s "")
  | _ => true
  end.

(** [String(i)] for an array index. *)
Fixpoint dec_aux (fuel n : nat) (acc : string) : string :=
  match fuel with
  | O => acc
  | S f =>
      let acc' := String (ascii_of_nat (48 + Nat.modulo n 10)) acc in
      if Nat.ltb n 10 then acc' else dec_aux f (Nat.div n 10) acc'
  end.

Definition string_of_nat (n : nat) : string := dec_aux (S n) n "".

(** White space removed by [String.prototype.trim], on 8-bit characters. *)
Definition js_space (c : ascii) : bool :=
  let n := nat_of_ascii c in
  (Nat.leb 9 n && Nat.leb n 13) || Nat.eqb n 32 || Nat.eqb n 160.

Fixpoint drop_space (l : list ascii) : list ascii :=
  match l with
  | c :: r => if js_space c then drop_space r else l
  | [] => []
  end.

Definition trim (l : list ascii) : list ascii := rev (drop_space (rev (drop_space l))).

(** [sanitizeString(str)] on a string. *)
Definition sanitizeString (s : string) : string :=
  if String.eqb s "" then "" else
  let l := trim (list_ascii_of_string s) in
  let l := filter (fun c => negb (Ascii.eqb c "<" || Ascii.eqb c ">")%bool) l in
  string_of_list_ascii (firstn 1000 l).

(** [sanitizeNumber(num)] on a number: [parseFloat] gives it back, [NaN]
    becomes [0]. *)
Definition sanitizeNumber (n : jsnum) : jsnum :=
  match n with NaN => Num 0 | Num z => Num z end.

(** The value [sanitizeObject] stores for one property (its [switch] on
    [typeof value]); a [null] value is an object whose sanitized copy is
    [{}], and an array item of type object is passed to [sanitizeObject]. *)
Fixpoint sanitize_entry (x : jsval) : jsval :=
  let fix props (ps : list (string * jsval)) : list (string * jsval) :=
    match ps with
    | [] => []
    | (k, y) :: r => (k, sanitize_entry y) :: props r
    end in
  let fix idx (i : nat) (ys : list jsval) : list (string * jsval) :=
    match ys with
    | [] => []
    | y :: r => (string_of_nat i, sanitize_entry y) :: idx (S i) r
    end in
  match x with
  | JStr s => JStr (sanitizeString s)
  | JNum n => JNum (sanitizeNumber n)
  | JDate t => JDate t
  | JNull => JObj []
  | JObj ps => JObj (props ps)
  | JArr ys =>
      JArr ((fix items (ys : list jsval) : list jsval :=
               match ys with
               | [] => []
               | y :: r =>
                   match y with
                   | JObj qs => JObj (props qs)
                   | JArr zs => JObj (idx 0 zs)
                   | JNull | JDate _ => JObj []
                   | _ => y
                   end :: items r
               end) ys)
  | _ => x
  end.

Fixpoint index_entries (i : nat) (ys : list jsval) : list (string * jsval) :=
  match ys with
  | [] => []
  | y :: r => (string_of_nat i, y) :: index_entries (S i) r
  end.

(** [sanitizeObject(obj)]: [{}] for anything that is not an object. *)
Definition sanitizeObject (v : jsval) : list (string * jsval) :=
  match v with
  | JObj ps => map (fun kv => (kv.1, sanitize_entry kv.2)) ps
  | JArr ys => map (fun kv => (kv.1, sanitize_entry kv.2)) (index_entries 0 ys)
  | _ => []
  end.

(** The own enumerable properties copied by an object rest pattern. *)
Definition own_entries (v : jsval) : list (string * jsval) :=
  match v with
  | JObj ps => ps
  | JArr ys => index_entries 0 ys
  | JStr s => index_entries 0 (map (fun c => JStr (String c EmptyString)) (list_ascii_of_string s))
  | _ => []
  end.

Definition sensitive (k : string) : bool :=
  String.eqb k "ssn" || String.eqb k "dateOfBirth" || String.eqb k "fullName".

(** [const { ssn, dateOfBirth, fullName, ...sanitized } = data]. *)
Definition strip_sensitive (ps : list (string * jsval)) : list (string * jsval) :=
  filter (fun kv => negb (sensitive kv.1)) ps.

(** [sanitizeResponse(data)]. *)
Definition sanitizeResponse (d : jsval) : jsval :=
  if negb (truthy d) then JNull
  else JObj (sanitizeObject (JObj (strip_sensitive (own_entries d)))).

(** What [sanitizeString] promises of its output: at most 1000 characters
    and no angle bracket. *)
Definition markup_free (s : string) : Prop :=
  List.length (list_ascii_of_string s) <= 1000 /\
  ~ In "<"%char (list_ascii_of_string s) /\ ~ In ">"%char (list_ascii_of_string s).

(** [String.prototype.toLowerCase] on one 8-bit (Latin-1) character: the
    capitals A-Z and U+00C0..U+00DE other than U+00D7 move down by 32. *)
Definition js_lower_char (c : ascii) : ascii :=
  let n := nat_of_ascii c in
  if ((Nat.leb 65 n && Nat.leb n 90) ||
      (Nat.leb 192 n && Nat.leb n 222 && negb (Nat.eqb n 215)))%bool
  then ascii_of_nat (n + 32) else c.

Definition toLowerCase (s : string) : string :=
  string_of_list_ascii (map js_lower_char (list_ascii_of_string s)).

(** [d.k]: the own property [k], else [undefined]. *)
Definition get (d : jsval) (k : string) : jsval :=
  match List.find (fun kv => String.eqb kv.1 k) (own_entries d) with
  | Some kv => kv.2
  | None => JUndefined
  end.

Section UserData.
(** [String(v)] on a value that is not a string, and [parseFloat(v)]: how
    dates, functions and fractions print or parse is left to the runtime. *)
Variable to_string : jsval -> string.
Variable parseFloat : jsval -> jsnum.

(** [sanitizeString(v)] on any value. *)
Definition sanitizeString_js (v : jsval) : string :=
  if negb (truthy v) then "" else
  match v with
  | JStr s => sanitizeString s
  | _ => sanitizeString (to_string v)
  end.

(** [sanitizeUserData(data)]; [sanitizeString] always returns a string, so
    the optional calls [?.toLowerCase()] always run. *)
Definition sanitizeUserData (d : jsval) : list (string * jsval) :=
  if negb (truthy d) then [] else
  [("address", JStr (toLowerCase (sanitizeString_js (get d "address"))));
   ("name", JStr (sanitizeString_js (get d "name")));
   ("age", JNum (sanitizeNumber (parseFloat (get d "age"))));
   ("email", JStr (toLowerCase (sanitizeString_js (get d "email"))));
   ("role", JStr (toLowerCase (sanitizeString_js (get d "role"))))].
End UserData.

End Sanitize.

(** The registration form of [client/src/components/UserRegistration.js]. *)
Module Registration.

Record form := mkForm {
  name : string;
  email : string;
  age : string;
  role : string;
  agreeToTerms : bool;
  agreeToHipaa : bool;
  address : string
}.

(** The checks at the start of [handleSubmit]: the message of the first
    one that fails. *)
Definition validate (f : form) : option string :=
  if String.eqb (string_of_list_ascii (Sanitize.trim (list_ascii_of_string f.(name)))) ""
  then Some "Name is required"
  else if String.eqb f.(role) "" then Some "Please select a role"
  else if negb f.(agreeToTerms) then Some "You must agree to the terms and conditions"
  else if negb f.(agreeToHipaa) then Some "You must acknowledge the HIPAA consent"
  else None.

(** [err.message || "Registration failed. Please try again."]. *)
Definition failure_message (m : string) : string :=
  if String.eqb m "" then "Registration failed. Please try again." else m.

(** What [handleSubmit] leaves behind: the [error] state, the role passed to
    [setRole], whether [onComplete] was reached, and [loading]. *)
Record submit := mkSubmit {
  s_error : option string;
  s_role : option string;
  s_completed : bool;
  s_loading : bool
}.

(** [handleSubmit(e)]. [consent_ok] and [consent_audit_ok] are the outcomes
    of the two awaited writes of [createHipaaConsent] (the consent record,
    then the [REGISTRATION_CONSENT] audit write); [registration] and [audit]
    are those of [userService.registerUser] and of the [USER_REGISTRATION]
    audit write: [None] when the call resolves, [Some m] when it rejects
    with message [m]. The writes [registerUser] does itself are not listed,
    and [onComplete] is taken to return normally. *)
Definition handleSubmit (f : form) (consent_ok consent_audit_ok : bool)
    (registration audit : option string) : submit * list effect :=
  let fail (es : list effect) (rl : option string) (m : string) :=
    (mkSubmit (Some (failure_message m)) rl false false,
     (es ++ [Notify "error" (failure_message m)])%list) in
  match validate f with
  | Some m => fail [] None m
  | None =>
      let es := if consent_ok then [Audit "REGISTRATION_CONSENT"] else [] in
      if negb (consent_ok && consent_audit_ok)
      then fail es None "Failed to record HIPAA consent. Please try again." else
      match registration with
      | Some m => fail es None m
      | None =>
          let es := (es ++ [Audit "USER_REGISTRATION"])%list in
          match audit with
          | Some m => fail es (Some f.(role)) m
          | None => (mkSubmit None (Some f.(role)) true false,
                     (es ++ [Notify "success" "Registration completed successfully!"])%list)
          end
      end
  end.

(** [nextStep] and [prevStep] on the step counter, which starts at 1. *)
Definition nextStep (step : Z) : Z := step + 1.
Definition prevStep (step : Z) : Z := Z.max 1 (step - 1).

Inductive nav := Next | Prev.

Definition navigate (step : Z) (ns : list nav) : Z :=
  fold_left (fun s n => match n with Next => nextStep s | Prev => prevStep s end) ns step.

End Registration.

(** * Proofs *)

Module AuthProofs.
Import Auth.

Section Props.
Context `{JsRuntime}.

Lemma set_if_ne k k' v ls : k <> k' -> set_if k v ls !! k' = ls !! k'.
Proof.
  intros Hne. unfold set_if. destruct (truthy_str v); [|done].
  destruct v; [|done]. by rewrite lookup_insert_ne.
Qed.

Lemma set_if_eq k x ls : x <> "" -> set_if k (Some x) ls !! k = Some x.
Proof.
  intros Hx. unfold set_if. simpl.
  destruct (String.eqb_spec x ""); [done|]. simpl. by rewrite lookup_insert_eq.
Qed.

(** [cred_inv] only reads the two credential fields and the two keys. *)
Lemma cred_inv_transfer s s' :
  s'.(mem).(token) = s.(mem).(token) ->
  s'.(mem).(tokenExpiry) = s.(mem).(tokenExpiry) ->
  s'.(store) !! tokenKey = s.(store) !! tokenKey ->
  s'.(store) !! tokenExpiryKey = s.(store) !! tokenExpiryKey ->
  cred_inv s -> cred_inv s'.
Proof. intros H1 H2 H3 H4 [Hm Hs]. split; congruence. Qed.

Ltac keys_ne :=
  let E := fresh in
  intros E; unfold tokenKey, refreshTokenKey, tokenExpiryKey, userProfileKey,
    walletAddressKey, isNewUserKey in *; simpl in E; discriminate E.

Ltac map_simp :=
  repeat first [ rewrite lookup_delete_eq | rewrite lookup_insert_eq
               | rewrite lookup_delete_ne by keys_ne | rewrite lookup_insert_ne by keys_ne ].

Lemma updateAuthState_inv t rt e up nu s : t <> "" -> e <> "" ->
  cred_inv (updateAuthState (Some t) rt (Some e) up nu s).
Proof.
  intros Ht He. split; [done|]. unfold updateAuthState; simpl.
  rewrite !(lookup_insert_ne _ isNewUserKey) by keys_ne.
  destruct up; [rewrite !(lookup_insert_ne _ userProfileKey) by keys_ne|];
    rewrite (set_if_eq tokenExpiryKey e) by done;
    rewrite (set_if_ne tokenExpiryKey tokenKey) by keys_ne;
    rewrite (set_if_ne refreshTokenKey tokenKey) by keys_ne;
    rewrite (set_if_eq tokenKey t) by done; done.
Qed.

Lemma wallet_write_inv w s :
  cred_inv s -> cred_inv (mkSvc (set_wallet w s.(mem)) (<[walletAddressKey := w]> s.(store))).
Proof.
  apply cred_inv_transfer; simpl; try done; by rewrite lookup_insert_ne by keys_ne.
Qed.

Lemma step_cred_inv s s' :
  (forall t, iso_string t <> "") -> step s s' -> cred_inv s -> cred_inv s'.
Proof.
  intros Hiso Hst Hinv. destruct Hst as
    [s a Hl|s arg now b1 b2|s b|s now|s ud b1 b2|s ud|s ud b|s k v Hk|s k Hk].
  - (* reload *)
    unfold loadAuthState in Hl. destruct (load_profile _); [|done].
    injection Hl as <-. destruct Hinv as [_ Hs]. by split.
  - (* login *)
    unfold login. destruct (truthy_str _) eqn:Ht; simpl; [|done].
    destruct (if truthy_str arg then arg else _) as [w|]; [|done].
    destruct b1; simpl; [|by apply wallet_write_inv].
    destruct (_ && _); [by apply wallet_write_inv|].
    destruct (getUserByWallet w _) as [s2 up].
    destruct b2; simpl; apply updateAuthState_inv; done.
  - (* logout *)
    unfold logout. destruct b; cbn [negb fst snd mem store token tokenExpiry]; [|done].
    split; cbn -[delete insert lookup]; [done|].
    by map_simp.
  - (* refresh *)
    unfold refreshAuthToken.
    destruct (truthy_str _); cbn [negb fst snd mem store token tokenExpiry]; [|done].
    split; cbn -[delete insert lookup]; [done|]. by map_simp.
  - (* register *)
    unfold register. destruct ud as [p|]; [|done]. destruct (profile_address p) as [addr|]; [|done].
    destruct (String.eqb addr ""); [done|]. destruct b1; simpl; [|done].
    destruct b2; simpl; apply cred_inv_transfer with s; simpl; try done;
      rewrite !lookup_insert_ne by keys_ne; done.
  - (* completeRegistration *)
    apply cred_inv_transfer with s; simpl; try done; rewrite !lookup_insert_ne by keys_ne; done.
  - (* updateProfile *)
    unfold updateProfile. destruct (profile_address ud) as [addr|]; [|done].
    destruct (String.eqb addr ""); [done|]. destruct b; simpl; [|done].
    apply cred_inv_transfer with s; simpl; try done; rewrite !lookup_insert_ne by keys_ne; done.
  - (* foreign write *)
    apply cred_inv_transfer with s; simpl; try done;
      rewrite lookup_insert_ne; try done; intros ->; apply Hk; unfold credential_key; auto.
  - (* foreign remove *)
    apply cred_inv_transfer with s; simpl; try done;
      rewrite lookup_delete_ne; try done; intros ->; apply Hk; unfold credential_key; auto.
Qed.

(** C7 (invariant): in every state the service can reach from a fresh
    [localStorage] (page reloads, login, logout, refresh, the profile
    methods, and other code writing non-credential keys), the token is
    present exactly when the expiry is, both in memory and in storage. *)
Theorem cred_inv_reachable :
  (forall t, iso_string t <> "") -> forall s, reachable s -> cred_inv s.
Proof.
  intros Hiso s Hr. unfold reachable in Hr.
  assert (Hinit : cred_inv init) by (split; done).
  induction Hr as [|x y z Hxy Hyz IH]; [done|].
  apply IH. by apply step_cred_inv with x.
Qed.

(** C5: when the stored expiry is a date at or before [now], the credential
    is expired: [isAuthenticated] is false and [verifyToken] refuses it. *)
Theorem expired_credential_rejected (a : auth) (now t : Z) (e : string) :
  a.(tokenExpiry) = Some e -> e <> "" -> date_parse e = Some t -> (t <= now)%Z ->
  isAuthenticated a now = false /\ verifyToken a now = false.
Proof.
  intros He Hne Hd Ht. unfold isAuthenticated, verifyToken. rewrite He.
  assert (Htr : truthy_str (Some e) = true).
  { simpl. destruct (String.eqb_spec e ""); done. }
  rewrite Htr, Hd. apply Z.leb_le in Ht. rewrite Ht.
  destruct (negb (truthy_str a.(token))); done.
Qed.

(** C4 (as the code does it): [logout] clears the session exactly when its
    awaited [AUTH_LOGOUT] audit write resolves; then [isAuthenticated] is
    false at every instant. When the write rejects, [logout] returns false
    and leaves memory and storage as they were. *)
Theorem logout_clears_unless_audit_rejects (b : bool) (s : svc) (now : Z) :
  let '(s', es, r) := logout b s in
  r = b /\ es = [Audit "AUTH_LOGOUT"] /\
  (b = true -> isAuthenticated s'.(mem) now = false) /\
  (b = false -> s' = s).
Proof. destruct b; simpl; repeat split; done. Qed.

(** C3 (as the code does it): [refreshAuthToken] fails exactly when no
    refresh token is held, and then leaves memory and storage unchanged;
    when it succeeds, token, refresh token and expiry are all replaced. *)
Theorem refresh_outcome (now : Z) (s : svc) :
  let '(s', ok) := refreshAuthToken now s in
  ok = truthy_str s.(mem).(refreshToken) /\
  (ok = false -> s' = s) /\
  (ok = true ->
     s'.(mem).(token) = Some ("demo_token_" ++ num_string now) /\
     s'.(mem).(refreshToken) = Some ("demo_refresh_" ++ num_string now) /\
     s'.(mem).(tokenExpiry) = Some (iso_string (now + 24 * 60 * 60 * 1000)) /\
     s'.(store) !! tokenKey = s'.(mem).(token) /\
     s'.(store) !! refreshTokenKey = s'.(mem).(refreshToken) /\
     s'.(store) !! tokenExpiryKey = s'.(mem).(tokenExpiry)).
Proof.
  unfold refreshAuthToken. destruct (truthy_str _) eqn:Hr;
    cbn [negb fst snd mem store token refreshToken tokenExpiry]; [|done].
  repeat split; try done; cbn -[insert lookup]; by map_simp.
Qed.

End Props.

Import SampleRuntime.

(** A session that logged in once satisfies the invariant of C7. *)
Lemma cred_inv_reachable_witness :
  cred_inv (login (Some "0xabc") 0 true true init).1.1.
Proof.
  apply cred_inv_reachable.
  - intros t. cbn. discriminate.
  - eapply rtc_l; [apply StepLogin | apply rtc_refl].
Defined.

(** A stored date at the current instant is rejected (C5). *)
Lemma expired_credential_rejected_witness :
  isAuthenticated (mkAuth (Some "tok") (Some "r") (Some "2030-01-01T00:00:00.000Z")
                     None None false) 1893456000000 = false /\
  verifyToken (mkAuth (Some "tok") (Some "r") (Some "2030-01-01T00:00:00.000Z")
                 None None false) 1893456000000 = false.
Proof.
  apply (expired_credential_rejected _ _ 1893456000000 "2030-01-01T00:00:00.000Z");
    [reflexivity | discriminate | reflexivity | apply Z.le_refl].
Defined.

(** C4 fails when the audit write rejects: the unexpired session survives
    [logout] and [isAuthenticated] is still true. *)
Lemma logout_audit_rejection_keeps_session :
  let s0 := mkSvc (mkAuth (Some "tok") (Some "r") None None (Some "0xabc") false) ∅ in
  (logout false s0).2 = false /\
  isAuthenticated (logout false s0).1.1.(mem) 0 = true.
Proof. split; reflexivity. Qed.

(** C3 fails without a refresh token: [refreshAuthToken] reports failure and
    the token and expiry are kept. *)
Lemma refresh_failure_retains_token :
  let s0 := mkSvc (mkAuth (Some "tok") None (Some "2030-01-01T00:00:00.000Z") None None false)
              (<[tokenExpiryKey := "2030-01-01T00:00:00.000Z"]> (<[tokenKey := "tok"]> ∅)) in
  (refreshAuthToken 0 s0).2 = false /\
  (refreshAuthToken 0 s0).1.(mem).(token) = Some "tok" /\
  (refreshAuthToken 0 s0).1.(mem).(tokenExpiry) = Some "2030-01-01T00:00:00.000Z" /\
  (refreshAuthToken 0 s0).1.(store) !! tokenKey = Some "tok".
Proof. repeat split; reflexivity. Qed.

End AuthProofs.

Module WalletProofs.
Import Wallet.

Ltac wkeys_ne :=
  let E := fresh in
  intros E; unfold addressKey, connectionKey in *; discriminate E.

(** Extensional equality of two storages built by inserts and deletes of
    literal keys. *)
Ltac map_ext :=
  apply map_eq; intros i;
  repeat first [ rewrite lookup_insert | rewrite lookup_delete ];
  repeat case_decide; simplify_eq; done.

Lemma connect_finally_local h : (connect_finally h).(local) = h.(local).
Proof. unfold connect_finally. by destruct h.(isActive). Qed.

Lemma connect_finally_wallet h : (connect_finally h).(wallet) = h.(wallet).
Proof. unfold connect_finally. by destruct h.(isActive). Qed.

Lemma connect_catch_clears code msg h :
  (connect_catch code msg h).1.(local) !! addressKey = None /\
  (connect_catch code msg h).1.(local) !! connectionKey = None.
Proof.
  unfold connect_catch. cbn -[delete lookup]. split.
  - rewrite lookup_delete_ne by wkeys_ne. apply lookup_delete_eq.
  - apply lookup_delete_eq.
Qed.

Lemma connect_catch_fails code msg h :
  exists m, (connect_catch code msg h).2 = ConnectFail m.
Proof. eexists. reflexivity. Qed.

(** C1 (as the code does it): when the provider returns accounts [a :: _]
    and the network query answers [n], [connectWallet] succeeds with [a]
    exactly as returned (not lower-cased): [localStorage] holds [a] and the
    connection flag, the wallet slice is [Connected a ("0x" ++ hex n)] and
    the profile address is [a]. *)
Theorem connect_success_stores_address_verbatim p now h a rest n :
  p.(request_accounts) = RpcOk (a :: rest) -> p.(get_network) = RpcOk n ->
  let '(h', es, r) := connectWallet (Some p) now h in
  r = ConnectOk a ("0x" ++ hex_of_N n) (getNetworkFromChainId (Some ("0x" ++ hex_of_N n))) /\
  h'.(local) !! addressKey = Some a /\
  h'.(local) !! connectionKey = Some "true" /\
  conn_of h'.(wallet) = Connected a (Some ("0x" ++ hex_of_N n)) /\
  h'.(user_address) = Some a /\ es = [].
Proof.
  intros Hr Hn. unfold connectWallet. rewrite Hr, Hn.
  cbn -[insert lookup connect_finally hex_of_N getNetworkFromChainId].
  rewrite connect_finally_local, connect_finally_wallet.
  cbn -[insert lookup hex_of_N getNetworkFromChainId].
  repeat split; try done.
  - rewrite lookup_insert_ne by wkeys_ne. apply lookup_insert_eq.
  - apply lookup_insert_eq.
  - unfold connect_finally. by destruct (isActive _).
Qed.

(** C6: without [window.ethereum], [connectWallet] fails with the install
    message and writes neither [localStorage] nor [sessionStorage] (nor the
    wallet slice). *)
Theorem connect_without_provider now h :
  let '(h', es, r) := connectWallet None now h in
  r = ConnectFail "Please install MetaMask to continue" /\
  h'.(local) = h.(local) /\ h'.(session) = h.(session) /\
  h'.(wallet) = h.(wallet) /\ es = [].
Proof. repeat split. Qed.

(** C9: with a provider present, every failing [connectWallet] leaves
    neither the wallet address nor the connection flag in [localStorage],
    whatever was stored before. *)
Theorem connect_failure_clears_wallet_keys p now h msg :
  (connectWallet (Some p) now h).2 = ConnectFail msg ->
  (connectWallet (Some p) now h).1.1.(local) !! addressKey = None /\
  (connectWallet (Some p) now h).1.1.(local) !! connectionKey = None.
Proof.
  unfold connectWallet.
  destruct p.(request_accounts) as [[|a rest]|code m];
    [| destruct p.(get_network) as [n|code m] |];
    cbn -[insert delete lookup connect_finally hex_of_N getNetworkFromChainId];
    intros Hf; rewrite ?connect_finally_local.
  all: try (simpl in Hf; discriminate Hf).
  all: unfold set_local; cbn [local].
  all: split; [rewrite lookup_delete_ne by wkeys_ne|]; apply lookup_delete_eq.
Qed.

(** C2 (as the code does it): an [accountsChanged] event with no accounts,
    delivered while the hook is active, clears the wallet slice (state
    [Disconnected]) and removes the stored wallet address and connection
    flag; its only emitted effect is an info notification, with no audit
    event. While the hook is inactive the event is ignored. *)
Theorem accounts_cleared_handler h :
  let '(h', es) := handleAccountsChanged [] h in
  count_audits es = 0 /\
  (h.(isActive) = true ->
     h'.(wallet) = wallet_init /\ conn_of h'.(wallet) = Disconnected /\
     h'.(local) !! addressKey = None /\ h'.(local) !! connectionKey = None /\
     es = [Notify "info" "Wallet disconnected"]) /\
  (h.(isActive) = false -> h' = h /\ es = []).
Proof.
  unfold handleAccountsChanged. destruct (isActive h) eqn:Ha;
    cbn -[delete lookup]; repeat split; try done.
  - rewrite lookup_delete_ne by wkeys_ne. apply lookup_delete_eq.
  - apply lookup_delete_eq.
Qed.

(** C8: [disconnectWallet] is idempotent: a second call returns [true],
    emits the same effects and leaves the state of the first call as it
    is; that state has no wallet identity, no stored wallet keys, and is
    [Disconnected]. *)
(** [disconnectWallet] in closed form. *)
Lemma disconnectWallet_eq eth h :
  disconnectWallet eth h =
  (mkHook (delete connectionKey (delete addressKey h.(local)))
     (<["force_wallet_reconnect" := "true"]> (delete "bypass_role_check"
        (delete "bypass_route_protection" (delete "auth_verification_override"
           (<["logout_in_progress" := "true"]> h.(session))))))
     (apply_patch [FAddress None; FIsConnected false; FNetwork None] h.(wallet))
     h.(user_address) false h.(isConnecting) None h.(isActive),
   [Notify "success" "Wallet disconnected successfully"], true).
Proof. destruct h. reflexivity. Qed.

Lemma wallet_keys_delete_idem (ls : gmap string string) :
  delete connectionKey (delete addressKey (delete connectionKey (delete addressKey ls))) =
  delete connectionKey (delete addressKey ls).
Proof. map_ext. Qed.

Lemma disconnect_session_idem (ss : gmap string string) :
  let f (m : gmap string string) :=
    <["force_wallet_reconnect" := "true"]> (delete "bypass_role_check"
      (delete "bypass_route_protection" (delete "auth_verification_override"
        (<["logout_in_progress" := "true"]> m)))) in
  f (f ss) = f ss.
Proof. intros f. unfold f. map_ext. Qed.

Lemma disconnect_patch_idem (w : wallet_state) :
  let p := [FAddress None; FIsConnected false; FNetwork None] in
  apply_patch p (apply_patch p w) = apply_patch p w.
Proof. by destruct w. Qed.

Theorem disconnect_idempotent eth h :
  let '(h1, es1, r1) := disconnectWallet eth h in
  let '(h2, es2, r2) := disconnectWallet eth h1 in
  h2 = h1 /\ r1 = true /\ r2 = true /\ es2 = es1 /\
  conn_of h1.(wallet) = Disconnected /\ h1.(wallet).(w_address) = None /\
  h1.(local) !! addressKey = None /\ h1.(local) !! connectionKey = None /\
  h1.(error) = None /\ h1.(loading) = false.
Proof.
  rewrite !disconnectWallet_eq. cbn [local session wallet error loading].
  split; [|split; [reflexivity|]].
  - rewrite wallet_keys_delete_idem, disconnect_patch_idem.
    pose proof (disconnect_session_idem (session h)) as Hs. cbv zeta in Hs.
    rewrite Hs. reflexivity.
  - repeat split.
    + rewrite lookup_delete_ne by wkeys_ne. apply lookup_delete_eq.
    + apply lookup_delete_eq.
Qed.

(** A MetaMask answering one mixed-case account on Sepolia, and a mounted
    hook whose [localStorage] remembers an earlier connection. *)
Lemma connect_success_stores_address_verbatim_witness :
  let p := mkProvider (RpcOk ["0xABC"]) (RpcOk 11155111%N) false true in
  let h := mkHook ∅ ∅ wallet_init None false false None true in
  let '(h', es, r) := connectWallet (Some p) 0 h in
  r = ConnectOk "0xABC" ("0x" ++ hex_of_N 11155111) (getNetworkFromChainId (Some ("0x" ++ hex_of_N 11155111))) /\
  h'.(local) !! addressKey = Some "0xABC" /\
  h'.(local) !! connectionKey = Some "true" /\
  conn_of h'.(wallet) = Connected "0xABC" (Some ("0x" ++ hex_of_N 11155111)) /\
  h'.(user_address) = Some "0xABC" /\ es = [].
Proof.
  apply (connect_success_stores_address_verbatim _ 0 _ "0xABC" [] 11155111%N);
    reflexivity.
Defined.

(** C1 fails: the provider's ["0xABC"] is stored and connected as is, not
    as ["0xabc"]. *)
Lemma connect_does_not_lowercase :
  let p := mkProvider (RpcOk ["0xABC"]) (RpcOk 11155111%N) false true in
  let h := mkHook ∅ ∅ wallet_init None false false None true in
  let h' := (connectWallet (Some p) 0 h).1.1 in
  h'.(local) !! addressKey = Some "0xABC" /\
  h'.(local) !! addressKey <> Some (to_lower "0xABC") /\
  conn_of h'.(wallet) = Connected "0xABC" (Some "0xaa36a7") /\
  conn_of h'.(wallet) <> Connected (to_lower "0xABC") (Some "0xaa36a7").
Proof. vm_compute. repeat split; try reflexivity; discriminate. Qed.

(** A user rejection (code 4001) after an earlier connection: both wallet
    keys are gone afterwards. *)
Lemma connect_failure_clears_wallet_keys_witness :
  let p := mkProvider (RpcErr (Some 4001%Z) "User rejected the request.") (RpcOk 1%N) false true in
  let h := mkHook (<[connectionKey := "true"]> (<[addressKey := "0xabc"]> ∅)) ∅
             wallet_init None false false None true in
  (connectWallet (Some p) 0 h).1.1.(local) !! addressKey = None /\
  (connectWallet (Some p) 0 h).1.1.(local) !! connectionKey = None.
Proof.
  apply (connect_failure_clears_wallet_keys _ _ _ "You rejected the connection request.").
  reflexivity.
Defined.

(** C2 fails on its audit part: the empty [accountsChanged] event of a
    connected, active hook emits no audit event at all. *)
Lemma accounts_cleared_emits_no_audit :
  let h := mkHook (<[connectionKey := "true"]> (<[addressKey := "0xabc"]> ∅)) ∅
             (mkWallet (Some "0xabc") (Some "0x1") true None (Some "metamask") (Some 0%Z))
             (Some "0xabc") false false None true in
  conn_of h.(wallet) = Connected "0xabc" (Some "0x1") /\
  count_audits (handleAccountsChanged [] h).2 = 0 /\
  count_audits (handleAccountsChanged [] h).2 <> 1.
Proof. vm_compute. repeat split; try reflexivity; discriminate. Qed.

End WalletProofs.

Module SanitizeProofs.
Import Sanitize.

Lemma sanitizeObject_keys ps : map fst (sanitizeObject (JObj ps)) = map fst ps.
Proof. simpl. rewrite map_map. by apply map_ext. Qed.

Lemma strip_sensitive_keys ps k : sensitive k = true -> k ∉ map fst (strip_sensitive ps).
Proof.
  intros Hk Hin. apply list_elem_of_fmap in Hin as [[k' v] [-> Hin]].
  apply list_elem_of_filter in Hin as [Hs _]. simpl in Hk, Hs. by rewrite Hk in Hs.
Qed.

(** C10 (as amended: top level only): [sanitizeResponse] returns [null] on
    falsy input; on objects whose top-level properties differ only in the
    keys [ssn], [dateOfBirth] and [fullName] it returns the same result;
    and its result has none of these keys at its top level. *)
Theorem sanitizeResponse_hides_sensitive :
  (forall d, truthy d = false -> sanitizeResponse d = JNull) /\
  (forall ps1 ps2, strip_sensitive ps1 = strip_sensitive ps2 ->
     sanitizeResponse (JObj ps1) = sanitizeResponse (JObj ps2)) /\
  (forall ps k, sensitive k = true ->
     exists out, sanitizeResponse (JObj ps) = JObj out /\ k ∉ map fst out).
Proof.
  split; [|split].
  - intros d Hd. unfold sanitizeResponse. by rewrite Hd.
  - intros ps1 ps2 Heq. unfold sanitizeResponse. simpl own_entries. by rewrite Heq.
  - intros ps k Hk. eexists. split; [reflexivity|].
    rewrite sanitizeObject_keys. by apply strip_sensitive_keys.
Qed.

(** The three keys are removed at the top level only: a nested [ssn] is
    copied through. *)
Example sanitizeResponse_nested_ssn :
  sanitizeResponse (JObj [("ssn", JStr "123-45-6789");
                          ("patient", JObj [("ssn", JStr "123-45-6789")])]) =
  JObj [("patient", JObj [("ssn", JStr "123-45-6789")])].
Proof. reflexivity. Qed.

(** C10 (counterexample): two objects that differ only in the value of a
    nested [ssn] field give different results, and that field is exposed
    in the result. *)
Theorem sanitizeResponse_nested_ssn_exposed :
  sanitizeResponse (JObj [("patient", JObj [("ssn", JStr "123-45-6789")])]) <>
  sanitizeResponse (JObj [("patient", JObj [("ssn", JStr "000-00-0000")])]) /\
  sanitizeResponse (JObj [("patient", JObj [("ssn", JStr "123-45-6789")])]) =
  JObj [("patient", JObj [("ssn", JStr "123-45-6789")])].
Proof. split; [vm_compute; discriminate | reflexivity]. Qed.

Example sanitizeResponse_cleans_values :
  sanitizeResponse (JObj [("name", JStr "  <b>Ann</b> "); ("age", JNum NaN);
                          ("fullName", JStr "Ann Lee"); ("tags", JArr [JNull; JStr "x"])]) =
  JObj [("name", JStr "bAnn/b"); ("age", JNum (Num 0));
        ("tags", JArr [JObj []; JStr "x"])].
Proof. reflexivity. Qed.

End SanitizeProofs.

(** * Further properties of the session service *)

Module AuthMoreProofs.
Import Auth.

Ltac skeys_ne :=
  let E := fresh in
  intros E; unfold tokenKey, refreshTokenKey, tokenExpiryKey, userProfileKey,
    walletAddressKey, isNewUserKey in *; simpl in E; discriminate E.

Ltac smap_simp :=
  repeat first [ rewrite lookup_delete_eq | rewrite lookup_insert_eq
               | rewrite lookup_delete_ne by skeys_ne | rewrite lookup_insert_ne by skeys_ne ].

Ltac auth_simp :=
  repeat first [ rewrite lookup_insert_eq | rewrite lookup_insert_ne by skeys_ne
               | rewrite AuthProofs.set_if_eq by done
               | rewrite AuthProofs.set_if_ne by skeys_ne ].

Section Props.
Context `{JsRuntime}.

Lemma truthy_str_some (x : string) : x <> "" -> truthy_str (Some x) = true.
Proof. intros Hx. simpl. by destruct (String.eqb_spec x ""). Qed.

(** A token with an expiry that lies ahead is accepted. *)
Lemma auth_fresh t r e up w nu now x :
  t <> "" -> date_parse e = Some x -> (now < x)%Z ->
  isAuthenticated (mkAuth (Some t) r (Some e) up w nu) now = true.
Proof.
  intros Ht Hd Hlt. unfold isAuthenticated; cbn [token tokenExpiry].
  rewrite (truthy_str_some t Ht). cbn [negb].
  destruct (truthy_str (Some e)); [|done]. rewrite Hd.
  destruct (Z.leb_spec x now); [lia|done].
Qed.

Lemma getUserByWallet_cases w s :
  (getUserByWallet w s).1 = s \/
  ((getUserByWallet w s).2 = None /\
   (getUserByWallet w s).1 = mkSvc (set_new_user true s.(mem)) (<[isNewUserKey := "true"]> s.(store))).
Proof.
  unfold getUserByWallet, saved_user.
  destruct (load_profile _) as [[p|]|]; [case_bool_decide|..]; (try by left);
    destruct (s.(store) !! _) as [su|]; try destruct (String.eqb su ""); auto.
Qed.

Lemma getUserByWallet_keeps w s k :
  k <> isNewUserKey ->
  (getUserByWallet w s).1.(store) !! k = s.(store) !! k /\
  (getUserByWallet w s).1.(mem).(walletAddress) = s.(mem).(walletAddress) /\
  (getUserByWallet w s).1.(mem).(token) = s.(mem).(token).
Proof.
  intros Hk. destruct (getUserByWallet_cases w s) as [-> | [_ ->]]; [done|].
  cbn -[insert lookup]. by rewrite lookup_insert_ne by congruence.
Qed.

Lemma login_full_eq w now b2 s :
  w <> "" -> (isAuthenticated s.(mem) now && is_set s.(mem).(userProfile))%bool = false ->
  login (Some w) now true b2 s =
  (updateAuthState (Some ("demo_token_" ++ num_string now)) (Some ("demo_refresh_" ++ num_string now))
     (Some (iso_string (now + 24 * 60 * 60 * 1000)))
     (getUserByWallet w (mkSvc (set_wallet w s.(mem)) (<[walletAddressKey := w]> s.(store)))).2 false
     (getUserByWallet w (mkSvc (set_wallet w s.(mem)) (<[walletAddressKey := w]> s.(store)))).1,
   if b2 then [Audit "AUTH_ATTEMPT"; Audit "AUTH_SUCCESS"]
   else [Audit "AUTH_ATTEMPT"; Audit "AUTH_SUCCESS"; Audit "AUTH_FAILURE"], b2).
Proof.
  intros Hw Hna. unfold login. cbn [negb mem store].
  do 2 (rewrite (truthy_str_some w Hw); cbn [negb]).
  replace (isAuthenticated (set_wallet w s.(mem)) now && is_set (set_wallet w s.(mem)).(userProfile))%bool
    with false by (symmetry; exact Hna).
  destruct (getUserByWallet w _) as [s2 up]. by destruct b2; reflexivity.
Qed.


Lemma updateAuthState_mem tok rt exp up nu s :
  (updateAuthState tok rt exp up nu s).(mem) = mkAuth tok rt exp up s.(mem).(walletAddress) nu.
Proof. reflexivity. Qed.

Lemma updateAuthState_other tok rt exp up nu s k :
  k <> tokenKey -> k <> refreshTokenKey -> k <> tokenExpiryKey -> k <> userProfileKey ->
  k <> isNewUserKey ->
  (updateAuthState tok rt exp up nu s).(store) !! k = s.(store) !! k.
Proof.
  intros H1 H2 H3 H4 H5. unfold updateAuthState. cbn [store].
  rewrite lookup_insert_ne by congruence.
  destruct up; [rewrite lookup_insert_ne by congruence|];
    rewrite !AuthProofs.set_if_ne by congruence; done.
Qed.

Lemma updateAuthState_keys t r e up nu s :
  t <> "" -> r <> "" -> e <> "" ->
  let ls := (updateAuthState (Some t) (Some r) (Some e) up nu s).(store) in
  ls !! tokenKey = Some t /\ ls !! refreshTokenKey = Some r /\ ls !! tokenExpiryKey = Some e /\
  ls !! isNewUserKey = Some (if nu then "true" else "false") /\
  ls !! userProfileKey = match up with
                         | Some p => Some (json_stringify p)
                         | None => s.(store) !! userProfileKey
                         end.
Proof.
  intros Ht Hr He ls. unfold ls, updateAuthState. cbn [store].
  destruct up; repeat split; auth_simp; done.
Qed.

(** A profile stored under [healthmint_user_profile] is found by its own
    address. *)
Lemma getUserByWallet_stored p a s :
  profile_address p = Some a -> json_stringify p <> "" -> json_parse (json_stringify p) = Some p ->
  s.(store) !! userProfileKey = Some (json_stringify p) ->
  getUserByWallet a s = (s, Some p).
Proof.
  intros Ha Hne Hj Hl. unfold getUserByWallet. rewrite Hl. cbn [load_profile].
  destruct (String.eqb_spec (json_stringify p) ""); [done|]. rewrite Hj. cbn [option_map].
  by rewrite bool_decide_eq_true_2.
Qed.

Lemma user_key_ne_new_user a : ("healthmint_user_" ++ a) <> isNewUserKey.
Proof. skeys_ne. Qed.

Lemma register_ok_eq p a b2 s :
  profile_address p = Some a -> a <> "" ->
  register (Some p) true b2 s =
  (store_registration p (mkSvc s.(mem) (<[("healthmint_user_" ++ a) := json_stringify p]> s.(store))),
   if b2 then [Audit "REGISTRATION_ATTEMPT"; Audit "REGISTRATION_SUCCESS"]
   else [Audit "REGISTRATION_ATTEMPT"; Audit "REGISTRATION_SUCCESS"; Audit "REGISTRATION_FAILURE"],
   b2).
Proof.
  intros Hp Ha. unfold register. rewrite Hp.
  destruct (String.eqb_spec a ""); [done|]. by destruct b2.
Qed.

(** X (edge): with neither an argument address nor a remembered one,
    [login] fails at once: one [AUTH_FAILURE] audit event, memory and
    storage untouched. *)
Theorem login_without_address arg now b1 b2 s :
  truthy_str arg = false -> truthy_str s.(mem).(walletAddress) = false ->
  login arg now b1 b2 s = (s, [Audit "AUTH_FAILURE"], false).
Proof.
  intros Ha Hw. unfold login. cbn [negb mem]. rewrite Ha. cbn [negb]. rewrite Hw. reflexivity.
Qed.


(** X: after a full login (no live session with a profile, the attempt
    audit resolved), the session is authenticated at the login instant,
    the address is remembered in memory and storage, and the new-user flag
    is [false] in memory and storage, also for a wallet without a saved
    profile; registration then counts as complete exactly when a profile
    was found. The result is the outcome of the [AUTH_SUCCESS] write. *)
Theorem login_full_authenticates w now b2 s :
  w <> "" ->
  (isAuthenticated s.(mem) now && is_set s.(mem).(userProfile))%bool = false ->
  date_parse (iso_string (now + 24 * 60 * 60 * 1000)) = Some (now + 24 * 60 * 60 * 1000)%Z ->
  let res := login (Some w) now true b2 s in
  res.2 = b2 /\ isAuthenticated res.1.1.(mem) now = true /\
  isNewUser res.1.1.(mem) = false /\ res.1.1.(store) !! isNewUserKey = Some "false" /\
  res.1.1.(mem).(walletAddress) = Some w /\ res.1.1.(store) !! walletAddressKey = Some w /\
  isRegistrationComplete res.1.1.(mem) = is_set res.1.1.(mem).(userProfile).
Proof.
  intros Hw Hna Hd res. unfold res. rewrite (login_full_eq w now b2 s Hw Hna). cbn [fst snd].
  set (s1 := mkSvc _ _).
  destruct (getUserByWallet_keeps w s1 walletAddressKey) as [Hk [Hwa _]]; [skeys_ne|].
  rewrite updateAuthState_mem.
  split; [done|]. split.
  { apply auth_fresh with (now + 24 * 60 * 60 * 1000)%Z; [discriminate | exact Hd | lia]. }
  split; [done|]. split.
  { unfold updateAuthState; cbn [store]. apply lookup_insert_eq. }
  split; [by rewrite Hwa|]. split.
  { rewrite updateAuthState_other by skeys_ne. rewrite Hk. cbn [store s1]. apply lookup_insert_eq. }
  unfold isRegistrationComplete. cbn [userProfile isNewUser_ negb]. by rewrite andb_true_r.
Qed.

(** X (round trip): a page reload right after a full login reads back the
    token, refresh token, expiry and address the login set, with the
    new-user flag [false]; the profile read back is the one login found,
    or, when it found none, whatever profile was stored before (login does
    not clear it). *)
Theorem login_reload_restores w now b2 s old :
  w <> "" ->
  (isAuthenticated s.(mem) now && is_set s.(mem).(userProfile))%bool = false ->
  iso_string (now + 24 * 60 * 60 * 1000) <> "" ->
  (forall p, json_stringify p <> "" /\ json_parse (json_stringify p) = Some p) ->
  load_profile (s.(store) !! userProfileKey) = Some old ->
  let s' := (login (Some w) now true b2 s).1.1 in
  exists a, loadAuthState s'.(store) = Some a /\
    a.(token) = s'.(mem).(token) /\ a.(refreshToken) = s'.(mem).(refreshToken) /\
    a.(tokenExpiry) = s'.(mem).(tokenExpiry) /\ a.(walletAddress) = Some w /\
    a.(isNewUser_) = false /\
    a.(userProfile) = match s'.(mem).(userProfile) with Some p => Some p | None => old end.
Proof.
  intros Hw Hna Hiso Hj Hold s'. unfold s'. rewrite (login_full_eq w now b2 s Hw Hna). cbn [fst].
  set (s1 := mkSvc _ _).
  destruct (getUserByWallet_keeps w s1 walletAddressKey) as [Hk _]; [skeys_ne|].
  destruct (getUserByWallet_keeps w s1 userProfileKey) as [Hp _]; [skeys_ne|].
  destruct (updateAuthState_keys ("demo_token_" ++ num_string now) ("demo_refresh_" ++ num_string now)
              (iso_string (now + 24 * 60 * 60 * 1000)) (getUserByWallet w s1).2 false
              (getUserByWallet w s1).1) as (Ht & Hr & He & Hn & Hu); [discriminate|discriminate|done|].
  unfold loadAuthState. rewrite Hu, Ht, Hr, He, Hn.
  rewrite updateAuthState_other by skeys_ne. rewrite Hk. cbn [store s1]. rewrite lookup_insert_eq.
  rewrite updateAuthState_mem. cbn [token refreshToken tokenExpiry userProfile].
  destruct (getUserByWallet w s1).2 as [p|].
  - destruct (Hj p) as [Hne Hpj]. cbn [load_profile].
    destruct (String.eqb_spec (json_stringify p) ""); [done|]. rewrite Hpj.
    eexists; split; [reflexivity|]. done.
  - rewrite Hp. cbn [store s1]. rewrite lookup_insert_ne by skeys_ne. rewrite Hold.
    eexists; split; [reflexivity|]. done.
Qed.

(** X: with the audit write resolving, a second [logout] changes nothing. *)
Theorem logout_twice s :
  (logout true (logout true s).1.1).1.1 = (logout true s).1.1.
Proof.
  cbn -[delete]. f_equal. apply map_eq. intros i.
  repeat rewrite lookup_delete. repeat case_decide; done.
Qed.

(** X: a completed [logout] removes exactly the token, refresh token,
    expiry, profile and new-user keys; the remembered wallet address stays,
    in memory and in storage, and registration no longer counts as
    complete. *)
Theorem logout_clears_exactly_session_keys s k :
  let s' := (logout true s).1.1 in
  s'.(mem).(walletAddress) = s.(mem).(walletAddress) /\
  isRegistrationComplete s'.(mem) = false /\
  ((k = tokenKey \/ k = refreshTokenKey \/ k = tokenExpiryKey \/ k = userProfileKey \/
    k = isNewUserKey) -> s'.(store) !! k = None) /\
  (k <> tokenKey -> k <> refreshTokenKey -> k <> tokenExpiryKey -> k <> userProfileKey ->
   k <> isNewUserKey -> s'.(store) !! k = s.(store) !! k).
Proof.
  cbn -[delete lookup]. split; [done|]. split; [done|]. split.
  - intros [->|[->|[->|[->| ->]]]]; smap_simp; done.
  - intros. rewrite !lookup_delete_ne by congruence. done.
Qed.

(** X (composition): a successful [refreshAuthToken] makes the session
    authenticated at the refresh instant, even if its token had expired;
    profile, address, new-user flag and every other stored key are kept. *)
Theorem refresh_revalidates now s :
  truthy_str s.(mem).(refreshToken) = true ->
  date_parse (iso_string (now + 24 * 60 * 60 * 1000)) = Some (now + 24 * 60 * 60 * 1000)%Z ->
  let s' := (refreshAuthToken now s).1 in
  isAuthenticated s'.(mem) now = true /\
  s'.(mem).(userProfile) = s.(mem).(userProfile) /\
  s'.(mem).(walletAddress) = s.(mem).(walletAddress) /\
  s'.(mem).(isNewUser_) = s.(mem).(isNewUser_) /\
  (forall k, k <> tokenKey -> k <> refreshTokenKey -> k <> tokenExpiryKey ->
     s'.(store) !! k = s.(store) !! k).
Proof.
  intros Hr Hd s'. unfold s', refreshAuthToken. rewrite Hr. cbn [negb fst mem store].
  split; [apply auth_fresh with (now + 24 * 60 * 60 * 1000)%Z; [discriminate | exact Hd | lia]|].
  repeat split. intros k H1 H2 H3. rewrite !lookup_insert_ne by congruence. done.
Qed.


(** X: [register] changes nothing unless it got a non-empty address and
    its [REGISTRATION_ATTEMPT] write resolved; every failing call ends
    with a [REGISTRATION_FAILURE] audit event. *)
Theorem register_failure_paths ud b1 b2 s :
  let '(s', es, r) := register ud b1 b2 s in
  (r = false -> last es = Some (Audit "REGISTRATION_FAILURE")) /\
  (r = true -> es = [Audit "REGISTRATION_ATTEMPT"; Audit "REGISTRATION_SUCCESS"]) /\
  (s' = s \/ (b1 = true /\ exists p a, ud = Some p /\ profile_address p = Some a /\ a <> "" /\
                s'.(mem).(userProfile) = Some p /\
                s'.(store) !! userProfileKey = Some (json_stringify p))).
Proof.
  unfold register. destruct ud as [p|]; [|by repeat split; [..|left]].
  destruct (profile_address p) as [a|] eqn:Ha; [|by repeat split; [..|left]].
  destruct (String.eqb_spec a ""); [by repeat split; [..|left]|].
  destruct b1; [|by repeat split; [..|left]].
  destruct b2; cbn [negb]; (split; [|split]); try done;
    right; (split; [done|]); exists p, a; (repeat split); try done;
    unfold store_registration; cbn [store]; smap_simp; done.
Qed.


(** X: [updateProfile] never touches the new-user flag; a failing call
    leaves the state as it was, and without an address it fails before any
    audit write. A successful one makes the profile current and stores it
    under [healthmint_user_<address>]. *)
Theorem updateProfile_outcome ud b s :
  let '(s', es, r) := updateProfile ud b s in
  s'.(mem).(isNewUser_) = s.(mem).(isNewUser_) /\
  s'.(store) !! isNewUserKey = s.(store) !! isNewUserKey /\
  (r = false -> s' = s) /\
  (truthy_str (profile_address ud) = false -> es = [] /\ r = false) /\
  (r = true -> s'.(mem).(userProfile) = Some ud /\ es = [Audit "PROFILE_UPDATE"] /\
     exists a, profile_address ud = Some a /\
       s'.(store) !! ("healthmint_user_" ++ a) = Some (json_stringify ud)).
Proof.
  unfold updateProfile. destruct (profile_address ud) as [a|]; [|by repeat split].
  destruct (String.eqb_spec a "") as [->|Ha]; [by repeat split|].
  assert (Htr : truthy_str (Some a) = false -> False).
  { intros Ht. simpl in Ht. by destruct (String.eqb_spec a ""). }
  destruct b; cbn [negb];
    [| split; [done|]; split; [done|]; split; [done|]; split;
       [intros Ht; by destruct (Htr Ht) | intros Hf; discriminate Hf]].
  cbn -[insert lookup]. split; [done|]. split.
  { rewrite !lookup_insert_ne; [done|skeys_ne|apply user_key_ne_new_user]. }
  split; [done|]. split; [intros Ht; by destruct (Htr Ht)|].
  intros _. split; [done|]. split; [done|]. exists a. split; [done|].
  destruct (decide (("healthmint_user_" ++ a) = userProfileKey)) as [E|E].
  - rewrite E. apply lookup_insert_eq.
  - rewrite lookup_insert_ne by congruence. apply lookup_insert_eq.
Qed.

(** X: [getUserByWallet] either leaves the service as it was, or finds no
    profile and raises the new-user flag in memory and storage, nothing
    else; when it returns a profile the state is untouched. *)
Theorem getUserByWallet_effect w s :
  let '(s', r) := getUserByWallet w s in
  (s' = s \/ (r = None /\ s' = mkSvc (set_new_user true s.(mem))
                                  (<[isNewUserKey := "true"]> s.(store)))) /\
  (is_set r = true -> s' = s).
Proof.
  unfold getUserByWallet, saved_user.
  destruct (load_profile _) as [[p|]|]; [case_bool_decide|..]; (try by split; [left|]);
    destruct (s.(store) !! _) as [su|]; try destruct (String.eqb su "");
    (split; [auto|done]).
Qed.

End Props.

Import JsonRuntime.

(** A first login on a fresh storage with no address at all. *)
Lemma login_without_address_witness :
  login None 0 true true init = (init, [Audit "AUTH_FAILURE"], false).
Proof. apply login_without_address; reflexivity. Defined.


(** A first login of ["0xabc"], one day before the known date. *)
Lemma login_full_authenticates_witness :
  let res := login (Some "0xabc") 1893369600000 true true init in
  res.2 = true /\ isAuthenticated res.1.1.(mem) 1893369600000 = true /\
  isNewUser res.1.1.(mem) = false /\ res.1.1.(store) !! isNewUserKey = Some "false" /\
  res.1.1.(mem).(walletAddress) = Some "0xabc" /\
  res.1.1.(store) !! walletAddressKey = Some "0xabc" /\
  isRegistrationComplete res.1.1.(mem) = is_set res.1.1.(mem).(userProfile).
Proof.
  apply login_full_authenticates; [discriminate | reflexivity | reflexivity].
Defined.

Lemma login_reload_restores_witness :
  let s' := (login (Some "0xabc") 1893369600000 true true init).1.1 in
  exists a, loadAuthState s'.(store) = Some a /\
    a.(token) = s'.(mem).(token) /\ a.(refreshToken) = s'.(mem).(refreshToken) /\
    a.(tokenExpiry) = s'.(mem).(tokenExpiry) /\ a.(walletAddress) = Some "0xabc" /\
    a.(isNewUser_) = false /\
    a.(userProfile) = match s'.(mem).(userProfile) with Some p => Some p | None => None end.
Proof.
  apply login_reload_restores;
    [discriminate | reflexivity | discriminate
    | intros p; split; [discriminate | reflexivity] | reflexivity].
Defined.

(** An expired session that still holds its refresh token. *)
Lemma refresh_revalidates_witness :
  let s0 := mkSvc (mkAuth (Some "tok") (Some "r") (Some "2030-01-01T00:00:00.000Z") None None false)
              (<[tokenExpiryKey := "2030-01-01T00:00:00.000Z"]> (<[tokenKey := "tok"]> ∅)) in
  let s' := (refreshAuthToken 1893369600000 s0).1 in
  isAuthenticated s'.(mem) 1893369600000 = true /\
  s'.(mem).(userProfile) = s0.(mem).(userProfile) /\
  s'.(mem).(walletAddress) = s0.(mem).(walletAddress) /\
  s'.(mem).(isNewUser_) = s0.(mem).(isNewUser_) /\
  (forall k, k <> tokenKey -> k <> refreshTokenKey -> k <> tokenExpiryKey ->
     s'.(store) !! k = s0.(store) !! k).
Proof. intros s0. apply refresh_revalidates; reflexivity. Defined.


End AuthMoreProofs.

(** * Further properties of the wallet hook *)

Module WalletMoreProofs.
Import Wallet.

Ltac xkeys_ne :=
  let E := fresh in
  intros E; unfold addressKey, connectionKey in *; discriminate E.

Lemma network_support_iff c :
  n_isSupported (getNetworkFromChainId (Some c)) = true <->
  c = "0x1" \/ c = "0xaa36a7" \/ c = "0x539".
Proof.
  unfold getNetworkFromChainId.
  destruct (String.eqb_spec c "") as [->|H0];
    [cbn; split; [done | intros [E|[E|E]]; discriminate E]|].
  destruct (String.eqb_spec c "0x1") as [->|H1]; [cbn; split; auto|].
  destruct (String.eqb_spec c "0xaa36a7") as [->|H2]; [cbn; split; auto|].
  destruct (String.eqb_spec c "0x5") as [->|H3];
    [cbn; split; [done | intros [E|[E|E]]; discriminate E]|].
  destruct (String.eqb_spec c "0x539") as [->|H4]; [cbn; split; auto|].
  cbn. split; [done | intros [E|[E|E]]; congruence].
Qed.

Lemma hex_digit_read d acc v :
  (d < 16)%N -> parse_hex_acc (hex_digit d ++ acc) v = parse_hex_acc acc (v * 16 + d).
Proof.
  intros Hd.
  assert (Hc : d = 0%N \/ d = 1%N \/ d = 2%N \/ d = 3%N \/ d = 4%N \/ d = 5%N \/ d = 6%N \/
               d = 7%N \/ d = 8%N \/ d = 9%N \/ d = 10%N \/ d = 11%N \/ d = 12%N \/
               d = 13%N \/ d = 14%N \/ d = 15%N) by lia.
  repeat (destruct Hc as [->|Hc]; [reflexivity|]). subst. reflexivity.
Qed.

Lemma hex_aux_read f n acc :
  (n < 16 ^ N.of_nat f)%N -> parse_hex_acc (hex_aux f n acc) 0 = parse_hex_acc acc n.
Proof.
  revert n acc. induction f as [|f IH]; intros n acc Hn.
  - cbn in Hn. assert (n = 0%N) as -> by lia. reflexivity.
  - cbn [hex_aux].
    pose proof (N.div_mod n 16 ltac:(lia)) as Hdm.
    pose proof (N.mod_lt n 16 ltac:(lia)) as Hm.
    destruct (N.ltb_spec n 16) as [Hlt|Hge].
    + rewrite hex_digit_read by done. f_equal. rewrite N.mod_small by done. lia.
    + rewrite IH.
      * rewrite hex_digit_read by done. f_equal. lia.
      * rewrite Nat2N.inj_succ, N.pow_succ_r' in Hn.
        revert Hn Hdm Hm. generalize (16 ^ N.of_nat f)%N (n / 16)%N (n mod 16)%N. intros. lia.
Qed.

Lemma lt_pow2_size n : (n < 2 ^ N.of_nat (N.size_nat n))%N.
Proof.
  destruct n as [|p]; [cbn; lia|]. cbn [N.size_nat].
  induction p as [p IH|p IH|]; cbn [Pos.size_nat]; rewrite ?Nat2N.inj_succ, ?N.pow_succ_r'; lia.
Qed.

(** [parseInt(n.toString(16), 16)] is [n]. *)
Lemma parse_hex_of_N n : parseInt16 (hex_of_N n) = n.
Proof.
  unfold parseInt16, hex_of_N. rewrite hex_aux_read; [reflexivity|].
  pose proof (lt_pow2_size n) as Hs.
  assert (2 ^ N.of_nat (N.size_nat n) <= 16 ^ N.of_nat (N.size_nat n))%N
    by (apply N.pow_le_mono_l; lia).
  rewrite Nat2N.inj_succ, N.pow_succ_r'. lia.
Qed.

Lemma chain_hex_eq n m : "0x" ++ hex_of_N n = "0x" ++ hex_of_N m -> n = m.
Proof.
  intros E. injection E as E.
  assert (Happ : forall x, ("" ++ x) = x) by reflexivity. rewrite !Happ in E.
  rewrite <- (parse_hex_of_N n), <- (parse_hex_of_N m). by rewrite E.
Qed.

(** X: [getNetworkFromChainId] marks a chain id as supported exactly for
    mainnet ["0x1"], Sepolia ["0xaa36a7"] and the local ["0x539"] (Goerli
    ["0x5"] is listed but unsupported); it keeps every non-empty id and
    names an unlisted one ["Unknown Network (<id>)"]. *)
Theorem network_supported_ids c :
  (n_isSupported (getNetworkFromChainId (Some c)) = true <->
   c = "0x1" \/ c = "0xaa36a7" \/ c = "0x539") /\
  (c <> "" -> n_chainId (getNetworkFromChainId (Some c)) = Some c) /\
  (c <> "" -> c <> "0x1" -> c <> "0xaa36a7" -> c <> "0x5" -> c <> "0x539" ->
   n_name (getNetworkFromChainId (Some c)) = "Unknown Network (" ++ c ++ ")").
Proof.
  split; [apply network_support_iff|]. unfold getNetworkFromChainId.
  split; intros H0; [|intros H1 H2 H3 H4];
    repeat match goal with
           | |- context [String.eqb c ?l] => destruct (String.eqb_spec c l) as [->|]
           end; done.
Qed.

(** X (composition): a successful [connectWallet] reports a supported
    network exactly when the provider's chain id is 1, 11155111 or 1337:
    the id is written [0x] plus lowercase hex, which reads back as the
    number. *)
Theorem connect_network_supported p now h a rest n :
  p.(request_accounts) = RpcOk (a :: rest) -> p.(get_network) = RpcOk n ->
  exists cid net, (connectWallet (Some p) now h).2 = ConnectOk a cid net /\
    (n_isSupported net = true <-> n = 1%N \/ n = 11155111%N \/ n = 1337%N).
Proof.
  intros Hr Hn. unfold connectWallet. rewrite Hr, Hn.
  cbn -[insert lookup connect_finally hex_of_N getNetworkFromChainId].
  eexists _, _. split; [reflexivity|]. rewrite network_support_iff.
  split.
  - intros [E|[E|E]].
    + left. apply chain_hex_eq. rewrite E. reflexivity.
    + right; left. apply chain_hex_eq. rewrite E. reflexivity.
    + right; right. apply chain_hex_eq. rewrite E. reflexivity.
  - intros [-> | [-> | ->]]; vm_compute; auto.
Qed.

(** X: a [chainChanged] event never touches the browser storages, the
    address, the connection flag or the profile, and is never audited.
    While the hook is active it records the chain id and its network and
    emits one notification, of kind [info] for a supported network and
    [warning] otherwise; while inactive it does nothing. *)
Theorem chainChanged_updates_chain_only cid h :
  let '(h', es) := handleChainChanged cid h in
  h'.(local) = h.(local) /\ h'.(session) = h.(session) /\
  h'.(user_address) = h.(user_address) /\
  h'.(wallet).(w_address) = h.(wallet).(w_address) /\
  h'.(wallet).(w_isConnected) = h.(wallet).(w_isConnected) /\
  count_audits es = 0 /\
  (h.(isActive) = true ->
     h'.(wallet).(w_chainId) = Some cid /\
     h'.(wallet).(w_network) = Some (getNetworkFromChainId (Some cid)) /\
     exists m, es = [Notify (if n_isSupported (getNetworkFromChainId (Some cid))
                             then "info" else "warning") m]) /\
  (h.(isActive) = false -> h' = h /\ es = []).
Proof.
  unfold handleChainChanged. destruct (isActive h) eqn:Ha; cbn -[getNetworkFromChainId];
    repeat first [ done | intros _ | (eexists; reflexivity) | split ].
Qed.

(** X: an [accountsChanged] event with accounts [a :: _], while the hook is
    active, stores [a] and makes it the wallet and profile address; the
    connection flag (stored and in the slice), the chain id and the session
    storage are left as they were, and nothing is audited. *)
Theorem accountsChanged_switches_account a rest h :
  let '(h', es) := handleAccountsChanged (a :: rest) h in
  h'.(local) !! connectionKey = h.(local) !! connectionKey /\ h'.(session) = h.(session) /\
  h'.(wallet).(w_isConnected) = h.(wallet).(w_isConnected) /\
  h'.(wallet).(w_chainId) = h.(wallet).(w_chainId) /\
  count_audits es = 0 /\
  (h.(isActive) = true ->
     h'.(local) !! addressKey = Some a /\ h'.(user_address) = Some a /\
     h'.(wallet).(w_address) = Some a /\ List.length es = 1) /\
  (h.(isActive) = false -> h' = h /\ es = []).
Proof.
  unfold handleAccountsChanged. destruct (isActive h) eqn:Ha;
    cbn -[insert lookup js_slice_head js_slice_last].
  - split; [by rewrite lookup_insert_ne by xkeys_ne|]. repeat split; try done.
    apply lookup_insert_eq.
  - repeat split; done.
Qed.

(** X: [switchNetwork] never changes the storages, the wallet slice or the
    profile, and is never audited. It returns [true] exactly when the
    provider accepted the switch; a rejection with code 4001 gives one
    [info] notification, any other failure one [error] notification;
    without [window.ethereum] it does nothing. An active hook ends with
    [loading] false. *)
Theorem switchNetwork_outcome eth h :
  let '(h', es, r) := switchNetwork eth h in
  h'.(local) = h.(local) /\ h'.(session) = h.(session) /\ h'.(wallet) = h.(wallet) /\
  h'.(user_address) = h.(user_address) /\ count_audits es = 0 /\
  (r = true <-> exists v, eth = Some (RpcOk v)) /\
  (forall m, eth = Some (RpcErr (Some 4001%Z) m) -> es = [Notify "info" "Network switch was rejected."]) /\
  (forall c m, eth = Some (RpcErr c m) -> c <> Some 4001%Z ->
     es = [Notify "error" "Failed to switch network. Please try again."]) /\
  (eth <> None -> h.(isActive) = true -> h'.(loading) = false) /\
  (eth = None -> h' = h /\ es = []).
Proof.
  unfold switchNetwork. destruct eth as [[v|c m]|].
  - cbn. destruct (isActive h); cbn; repeat split; try done; eauto;
      intros; congruence.
  - cbn. case_bool_decide as Hc; destruct (isActive h); cbn;
      repeat split; try done; intros; try congruence;
      match goal with
      | E : _ = Some _ |- _ => injection E as <- <-; done
      | E : exists _, _ |- _ => destruct E; congruence
      | _ => idtac
      end.
  - cbn. repeat split; try done; intros; try congruence.
    match goal with E : exists _, _ |- _ => destruct E; congruence end.
Qed.

(** X (round trip): after a successful [connectWallet] of a non-empty
    address, a page reload (storages kept, Redux and React state afresh)
    reconnects that address on mount as soon as the provider answers
    [eth_chainId]. *)
Theorem connect_survives_reload p now h a rest n cid now' :
  p.(request_accounts) = RpcOk (a :: rest) -> p.(get_network) = RpcOk n -> a <> "" ->
  let h' := (connectWallet (Some p) now h).1.1 in
  let h'' := restoreConnection (Some (RpcOk cid)) now' (remount h') in
  conn_of h''.(wallet) = Connected a (Some cid) /\ h''.(user_address) = Some a /\
  h''.(wallet).(w_network) = Some (getNetworkFromChainId (Some cid)).
Proof.
  intros Hr Hn Ha h' h''.
  assert (Hl : h'.(local) !! addressKey = Some a /\ h'.(local) !! connectionKey = Some "true").
  { unfold h', connectWallet. rewrite Hr, Hn.
    cbn -[insert lookup connect_finally hex_of_N getNetworkFromChainId].
    rewrite WalletProofs.connect_finally_local.
    cbn -[insert lookup hex_of_N getNetworkFromChainId].
    split; [rewrite lookup_insert_ne by xkeys_ne|]; apply lookup_insert_eq. }
  destruct Hl as [Hla Hlc].
  unfold h'', restoreConnection, remount. cbn [local wallet w_address wallet_init].
  rewrite Hla, Hlc. rewrite bool_decide_eq_true_2 by done.
  assert (Ht : truthy_str (Some a) = true) by (simpl; by destruct (String.eqb_spec a "")).
  rewrite Ht. cbn -[getNetworkFromChainId]. done.
Qed.


(** MetaMask on Sepolia answering one account. *)
Lemma connect_network_supported_witness :
  let p := mkProvider (RpcOk ["0xabc"]) (RpcOk 11155111%N) false true in
  let h := mkHook ∅ ∅ wallet_init None false false None true in
  exists cid net, (connectWallet (Some p) 0 h).2 = ConnectOk "0xabc" cid net /\
    (n_isSupported net = true <->
     11155111%N = 1%N \/ 11155111%N = 11155111%N \/ 11155111%N = 1337%N).
Proof.
  apply (connect_network_supported _ 0 _ "0xabc" [] 11155111%N); reflexivity.
Defined.

(** The same connection, then a reload while the chain is Sepolia. *)
Lemma connect_survives_reload_witness :
  let p := mkProvider (RpcOk ["0xabc"]) (RpcOk 11155111%N) false true in
  let h := mkHook ∅ ∅ wallet_init None false false None true in
  let h' := (connectWallet (Some p) 0 h).1.1 in
  let h'' := restoreConnection (Some (RpcOk "0xaa36a7")) 1 (remount h') in
  conn_of h''.(wallet) = Connected "0xabc" (Some "0xaa36a7") /\ h''.(user_address) = Some "0xabc" /\
  h''.(wallet).(w_network) = Some (getNetworkFromChainId (Some "0xaa36a7")).
Proof.
  apply (connect_survives_reload _ 0 _ "0xabc" [] 11155111%N "0xaa36a7" 1);
    [reflexivity | reflexivity | discriminate].
Defined.

End WalletMoreProofs.

(** * Further properties of the sanitizers *)

Module SanitizeMoreProofs.
Import Sanitize.

Lemma in_take_in {A} (x : A) n l : In x (take n l) -> In x l.
Proof.
  rewrite <- !list_elem_of_In. intros Hx. apply elem_of_take in Hx as [i [Hi _]].
  by eapply list_elem_of_lookup_2.
Qed.

Lemma sanitizeString_free s : markup_free (sanitizeString s).
Proof.
  unfold sanitizeString, markup_free. destruct (String.eqb s "").
  { cbn. split; [lia|]. split; intros []. }
  rewrite list_ascii_of_string_of_list_ascii.
  split; [apply firstn_le_length|].
  split; intros Hin; apply in_take_in, list_elem_of_In, list_elem_of_filter in Hin as [Hc _];
    revert Hc; cbn; rewrite ?Ascii.eqb_refl, ?orb_true_r; done.
Qed.

Lemma js_lower_char_idem c : js_lower_char (js_lower_char c) = js_lower_char c.
Proof. destruct c as [[] [] [] [] [] [] [] []]; reflexivity. Qed.

Lemma js_lower_char_lt c : js_lower_char c = "<"%char -> c = "<"%char.
Proof. destruct c as [[] [] [] [] [] [] [] []]; cbv; intros E; (reflexivity || discriminate E). Qed.

Lemma js_lower_char_gt c : js_lower_char c = ">"%char -> c = ">"%char.
Proof. destruct c as [[] [] [] [] [] [] [] []]; cbv; intros E; (reflexivity || discriminate E). Qed.

Lemma toLowerCase_idem s : toLowerCase (toLowerCase s) = toLowerCase s.
Proof.
  unfold toLowerCase. rewrite list_ascii_of_string_of_list_ascii, map_map.
  f_equal. apply map_ext. apply js_lower_char_idem.
Qed.

Lemma toLowerCase_free s : markup_free s -> markup_free (toLowerCase s).
Proof.
  unfold markup_free, toLowerCase. rewrite list_ascii_of_string_of_list_ascii, length_map.
  intros (Hl & Hlt & Hgt). split; [done|]. split; intros Hin; apply in_map_iff in Hin as (c & Hc & Hin).
  - apply js_lower_char_lt in Hc. subst. done.
  - apply js_lower_char_gt in Hc. subst. done.
Qed.

Lemma sanitizeString_js_free ts v : markup_free (sanitizeString_js ts v).
Proof.
  unfold sanitizeString_js. destruct (negb (truthy v)).
  - unfold markup_free. cbn. split; [lia|]. split; intros [].
  - destruct v; apply sanitizeString_free.
Qed.

Lemma map_fst_filter (ps : list (string * jsval)) :
  map fst (filter (fun kv => negb (sensitive kv.1)) ps) =
  filter (fun k => negb (sensitive k)) (map fst ps).
Proof.
  induction ps as [|[k v] ps IH]; [done|]. cbn [map fst].
  rewrite !filter_cons. cbn [fst]. by case_decide; cbn [map fst]; rewrite IH.
Qed.

(** X: [sanitizeString] never returns more than 1000 characters or an
    angle bracket, whatever its input. *)
Theorem sanitizeString_bounded s :
  List.length (list_ascii_of_string (sanitizeString s)) <= 1000 /\
  ~ In "<"%char (list_ascii_of_string (sanitizeString s)) /\
  ~ In ">"%char (list_ascii_of_string (sanitizeString s)).
Proof. apply sanitizeString_free. Qed.







End SanitizeMoreProofs.

(** * Properties of the registration form *)

Module RegistrationProofs.
Import Registration.

Lemma validate_message f m : validate f = Some m -> failure_message m = m.
Proof.
  unfold validate. repeat case_match; intros Hv; try discriminate Hv;
    injection Hv as <-; reflexivity.
Qed.

Lemma failure_message_nonempty m : failure_message m <> "".
Proof. unfold failure_message. by destruct (String.eqb_spec m ""). Qed.

Lemma drop_space_all l : Forall (fun c => Sanitize.js_space c = true) l -> Sanitize.drop_space l = [].
Proof. induction 1 as [|c l Hc _ IH]; [done|]. cbn. by rewrite Hc. Qed.

(** X: when a check of the form fails, [handleSubmit] shows that check's
    message as the error and as an error notification, writes nothing,
    calls no service and does not reach [onComplete]. *)
Theorem handleSubmit_invalid_form f m consent_ok consent_audit_ok registration audit :
  validate f = Some m ->
  handleSubmit f consent_ok consent_audit_ok registration audit =
    (mkSubmit (Some m) None false false, [Notify "error" m]).
Proof.
  intros Hv. unfold handleSubmit. rewrite Hv. cbn.
  by rewrite (validate_message f m Hv).
Qed.


(** X: a name made only of white space is rejected first, with
    [Name is required], whatever else the form holds. *)
Theorem blank_name_rejected f :
  Forall (fun c => Sanitize.js_space c = true) (list_ascii_of_string f.(name)) ->
  validate f = Some "Name is required".
Proof.
  intros Hs. unfold validate, Sanitize.trim. rewrite (drop_space_all _ Hs). reflexivity.
Qed.

(** X: starting from a valid step, any sequence of [nextStep] and
    [prevStep] keeps the step at least 1, and [prevStep] undoes
    [nextStep]. *)
Theorem step_navigation s ns :
  (1 <= s)%Z -> (1 <= navigate s ns)%Z /\ prevStep (nextStep s) = s.
Proof.
  intros Hs. split.
  - unfold navigate. revert s Hs. induction ns as [|[|] ns IH]; intros s Hs; cbn [fold_left]; [done| |];
      apply IH; unfold nextStep, prevStep; lia.
  - unfold prevStep, nextStep. lia.
Qed.

(** A form with an empty role. *)
Lemma handleSubmit_invalid_form_witness :
  validate (mkForm "Ann" "a@b.c" "30" "" true true "0xabc") = Some "Please select a role" /\
  handleSubmit (mkForm "Ann" "a@b.c" "30" "" true true "0xabc") true true None None =
    (mkSubmit (Some "Please select a role") None false false, [Notify "error" "Please select a role"]).
Proof.
  split; [reflexivity|]. apply handleSubmit_invalid_form. reflexivity.
Defined.

(** A name of two spaces and a tab. *)
Lemma blank_name_rejected_witness :
  validate (mkForm "  	" "a@b.c" "30" "patient" true true "0xabc") = Some "Name is required".
Proof. apply blank_name_rejected. cbn. repeat constructor. Defined.

(** Back from step 1, then forward twice. *)
Lemma step_navigation_witness :
  (1 <= navigate 1 [Prev; Next; Next])%Z /\ prevStep (nextStep 1) = 1%Z.
Proof. apply step_navigation. lia. Defined.

End RegistrationProofs.
